(** * langchain-ex: the chat backend, the provider router and the agent loop

    A shallow embedding of

    - [chatbox_gradio/ai.py]      (module [ai]):      provider routing and the
                                                      chain cache of [AIService];
    - [chatbox_gradio/backend.py] (module [backend]): the Flask handlers
                                                      [get_available_models] and [chat];
    - [taiga/main.py]             (module [taiga]):   the read-eval loop
                                                      [interactive_mode] and its history;
    - [chatbox_gradio/ai.py]      (module [ai_cli]):  its interactive [main];
    - [ollama/main.py]            (module [ollama_script]);
    - [chatbox_gradio/frontend.py] (module [frontend]): [send_chat_request] and
                                                      [chat_fn].

    Everything the repository delegates to a library (the LLM clients, the
    agent executor, [input()], the HTTP transport) is a parameter of the
    model: the classes [Repr], [Sdk] and [frontend.Http], the record
    [taiga.Session]. *)

From Stdlib Require Import ZArith Ascii String.
From stdpp Require Import gmap strings list fin_maps.

#[local] Set Warnings "-register-all".
#[local] Open Scope string_scope.
#[local] Open Scope Z_scope.

(** ** The fragment of Python the three files run on *)

Module py.

(** A Python [str] is modelled by a Rocq [string] whose characters are the
    code points 0..255 (Latin-1); code points above 255 are outside the
    model. *)

Definition NL : string := String (ascii_of_N 10) EmptyString.

(** [ch.isspace()] on code points below 256. *)
Definition isspace (c : ascii) : bool :=
  let n := N_of_ascii c in
  (((9 <=? n) && (n <=? 13)) || ((28 <=? n) && (n <=? 32))
   || (n =? 133) || (n =? 160))%N.

Fixpoint lstrip (s : string) : string :=
  match s with
  | EmptyString => EmptyString
  | String c r => if isspace c then lstrip r else s
  end.

Fixpoint rstrip (s : string) : string :=
  match s with
  | EmptyString => EmptyString
  | String c r =>
      match rstrip r with
      | EmptyString => if isspace c then EmptyString else String c EmptyString
      | r' => String c r'
      end
  end.

(** [s.strip()] *)
Definition strip (s : string) : string := rstrip (lstrip s).

(** [ch.lower()] on code points below 256: A-Z and the accented capitals
    U+00C0..U+00DE (the multiplication sign U+00D7 apart) move up by 32. *)
Definition lower_char (c : ascii) : ascii :=
  let n := N_of_ascii c in
  if (((65 <=? n) && (n <=? 90))
      || ((192 <=? n) && (n <=? 222) && negb (n =? 215)))%N
  then ascii_of_N (n + 32) else c.

(** [s.lower()] *)
Fixpoint lower (s : string) : string :=
  match s with
  | EmptyString => EmptyString
  | String c r => String (lower_char c) (lower r)
  end.

(** [sub in s] for two strings. *)
Fixpoint contains (sub s : string) : bool :=
  String.prefix sub s
  || match s with
     | EmptyString => false
     | String _ r => contains sub r
     end.

(** [bool(s)] for a string. *)
Definition str_truthy (s : string) : bool :=
  match s with EmptyString => false | _ => true end.

(** The values [json.loads] produces. A number is an integer here: a
    float takes the same branch as an integer in every operation below. *)
Inductive pyval : Type :=
| PNone
| PBool (b : bool)
| PInt (z : Z)
| PStr (s : string)
| PList (l : list pyval)
| PDict (d : gmap string pyval).

(** [type(v).__name__] *)
Definition type_name (v : pyval) : string :=
  match v with
  | PNone => "NoneType"
  | PBool _ => "bool"
  | PInt _ => "int"
  | PStr _ => "str"
  | PList _ => "list"
  | PDict _ => "dict"
  end.

(** [bool(v)] *)
Definition truthy (v : pyval) : bool :=
  match v with
  | PNone => false
  | PBool b => b
  | PInt z => negb (z =? 0)
  | PStr s => str_truthy s
  | PList l => match l with [] => false | _ => true end
  | PDict d => negb (Nat.eqb (size d) 0)
  end.

(** [a or b] *)
Definition py_or (a b : pyval) : pyval := if truthy a then a else b.

(** [bool(os.getenv(k))] and [not config[...]['api_key']] work on an
    optional string. *)
Definition opt_truthy (o : option string) : bool :=
  match o with Some s => str_truthy s | None => false end.

Definition of_optional (o : option string) : pyval :=
  match o with Some s => PStr s | None => PNone end.

(** The exceptions below [Exception] that the three files meet. The text
    of the interpreter's own messages is CPython 3.11's. *)
Inductive exn : Type :=
| ValueError (msg : string)
| TypeError (msg : string)
| AttributeError (msg : string)
| KeyError (key : string)
| EOFError (msg : string)
| Exception (msg : string).

(** [ch.isprintable()] on code points below 256: the controls U+0000..U+001F
    and U+007F..U+009F, the no-break space U+00A0 and the soft hyphen U+00AD
    are not. *)
Definition isprintable (c : ascii) : bool :=
  let n := N_of_ascii c in
  (((32 <=? n) && (n <? 127)) || ((161 <=? n) && negb (n =? 173)))%N.

Definition hexdigit (n : N) : ascii :=
  ascii_of_N (if (n <? 10)%N then 48 + n else 87 + n).

(** The quote [repr] puts around a string: the double quote when the string
    has an apostrophe and no double quote, the apostrophe otherwise. *)
Definition repr_quote (s : string) : ascii :=
  if contains "'" s && negb (contains (String (ascii_of_N 34) "") s)
  then ascii_of_N 34 else ascii_of_N 39.

(** One character inside [repr(s)]. *)
Definition repr_char (quote c : ascii) : string :=
  let n := N_of_ascii c in
  if Ascii.eqb c quote || (n =? 92)%N then String (ascii_of_N 92) (String c "")
  else if (n =? 9)%N then String (ascii_of_N 92) "t"
  else if (n =? 10)%N then String (ascii_of_N 92) "n"
  else if (n =? 13)%N then String (ascii_of_N 92) "r"
  else if isprintable c then String c ""
  else String (ascii_of_N 92)
         (String "x" (String (hexdigit (n / 16)) (String (hexdigit (n mod 16)) ""))).

Fixpoint repr_chars (quote : ascii) (s : string) : string :=
  match s with
  | EmptyString => EmptyString
  | String c r => repr_char quote c +:+ repr_chars quote r
  end.

(** [repr(s)] for a string. *)
Definition repr_str (s : string) : string :=
  let quote := repr_quote s in
  String quote (repr_chars quote s +:+ String quote "").

(** [str(e)] *)
Definition str_exn (e : exn) : string :=
  match e with
  | ValueError m | TypeError m | AttributeError m | EOFError m | Exception m => m
  | KeyError k => repr_str k
  end.

Inductive result (A : Type) : Type :=
| Ok (a : A)
| Raise (e : exn).
Arguments Ok {A} a.
Arguments Raise {A} e.

Definition rbind {A B} (r : result A) (k : A -> result B) : result B :=
  match r with Ok a => k a | Raise e => Raise e end.

Definition no_attribute {A} (v : pyval) (attr : string) : result A :=
  Raise (AttributeError
           ("'" +:+ type_name v +:+ "' object has no attribute '" +:+ attr +:+ "'")).

(** [v.strip()] *)
Definition py_strip (v : pyval) : result string :=
  match v with PStr s => Ok (strip s) | _ => no_attribute v "strip" end.

(** [v.lower()] *)
Definition py_lower (v : pyval) : result string :=
  match v with PStr s => Ok (lower s) | _ => no_attribute v "lower" end.

(** [v.get(key)] *)
Definition py_get (v : pyval) (key : string) : result pyval :=
  match v with
  | PDict d => Ok (default PNone (d !! key))
  | _ => no_attribute v "get"
  end.

(** [x == key] for a string [key]. *)
Definition eq_str (key : string) (x : pyval) : bool :=
  match x with PStr s => String.eqb s key | _ => false end.

(** [key in v] for a string [key]. *)
Definition py_in (key : string) (v : pyval) : result bool :=
  match v with
  | PDict d => Ok (bool_decide (is_Some (d !! key)))
  | PList l => Ok (existsb (eq_str key) l)
  | PStr s => Ok (contains key s)
  | _ => Raise (TypeError
                  ("argument of type '" +:+ type_name v +:+ "' is not iterable"))
  end.

(** [v[key]] for a string [key]. *)
Definition py_getitem (v : pyval) (key : string) : result pyval :=
  match v with
  | PDict d =>
      match d !! key with Some x => Ok x | None => Raise (KeyError key) end
  | PList _ => Raise (TypeError "list indices must be integers or slices, not str")
  | PStr _ => Raise (TypeError "string indices must be integers, not 'str'")
  | _ => Raise (TypeError ("'" +:+ type_name v +:+ "' object is not subscriptable"))
  end.

(** [str(v)] for a value that is not a string is left to the interpreter. *)
Class Repr := py_repr : pyval -> string.

(** [f"{v}"] and [str(v)] *)
Definition format `{Repr} (v : pyval) : string :=
  match v with PStr s => s | _ => py_repr v end.

(** [x in l] for a list of strings. *)
Definition str_in (x : string) (l : list string) : bool :=
  existsb (String.eqb x) l.

End py.
Export py.

(** ** chatbox_gradio/ai.py *)

Module ai.

(** [class ModelProvider(Enum)] *)
Inductive ModelProvider : Type := AUTO | GPT | CLAUDE.

#[export] Instance ModelProvider_eq_dec : EqDecision ModelProvider.
Proof. solve_decision. Defined.

(** [provider.value] *)
Definition value (p : ModelProvider) : string :=
  match p with AUTO => "auto" | GPT => "gpt" | CLAUDE => "claude" end.

(** [ModelProvider(s)]: lookup by value; the message of the [ValueError] is
    ["%r is not a valid %s" % (s, "ModelProvider")]. *)
Definition ModelProvider_of (s : string) : result ModelProvider :=
  if String.eqb s "auto" then Ok AUTO
  else if String.eqb s "gpt" then Ok GPT
  else if String.eqb s "claude" then Ok CLAUDE
  else Raise (ValueError (repr_str s +:+ " is not a valid ModelProvider")).

Record PromptTemplate := {
  input_variables : list string;
  template : string
}.

(** The three LLM clients, with the keyword arguments they are built from. *)
Inductive llm_client : Type :=
| OllamaLLM (model : pyval) (base_url : string)
| ChatOpenAI (model : pyval) (api_key : string) (base_url : string)
| ChatAnthropic (model : pyval) (api_key : string).

(** [RunnableSequence(prompt, llm)] *)
Record RunnableSequence := {
  prompt_of : PromptTemplate;
  llm_of : llm_client
}.

(** What [chain.invoke] hands back: an object with a [content] attribute,
    a string, or something else (given by its [str]). *)
Inductive reply : Type :=
| WithContent (content : string)
| Plain (s : string)
| Other (str : string).

(** Calls into the SDK, in the order they are made. *)
Inductive sdk_call : Type :=
| Construct (llm : llm_client)
| Invoke (chain : RunnableSequence) (question : string).

(** What the SDK contributes. *)
Class Sdk := {
  (** the exception, if any, with which a client class refuses its keyword
      arguments *)
  client_error : llm_client -> option exn;
  (** [chain.invoke({"question": q})], a function of the calls made so far *)
  chain_invoke : list sdk_call -> RunnableSequence -> string -> result reply
}.

(** [self.config], the three inner dictionaries side by side. *)
Record Config := {
  ollama_base_url : string;
  ollama_model : string;
  openai_api_key : option string;
  openai_base_url : string;
  openai_model : string;
  anthropic_api_key : option string;
  anthropic_model : string
}.

(** [os.getenv(k, dflt)] over the process environment, [.env] loaded. *)
Definition getenv (env : gmap string string) (k dflt : string) : string :=
  default dflt (env !! k).

Definition _setup_config (env : gmap string string) : Config :=
  {| ollama_base_url := getenv env "OLLAMA_BASE_URL" "http://localhost:11434";
     ollama_model := getenv env "OLLAMA_DEFAULT_MODEL" "qwen3:8b";
     openai_api_key := env !! "OPENAI_API_KEY";
     openai_base_url := getenv env "OPENAI_BASE_URL" "https://api.openai.com/v1";
     openai_model := "gpt-3.5-turbo";
     anthropic_api_key := env !! "ANTHROPIC_API_KEY";
     anthropic_model := "claude-3-haiku-20240307" |}.

Record AIService := {
  chains : gmap string RunnableSequence;
  config : Config
}.

(** The service object together with the trace of SDK calls. *)
Record world := {
  ai_service : AIService;
  calls : list sdk_call
}.

(** [ai_service = AIService()] at import time. *)
Definition init (env : gmap string string) : world :=
  {| ai_service := {| chains := ∅; config := _setup_config env |};
     calls := [] |}.

(** Computations that read and update the world and may raise. *)
Definition M (A : Type) : Type := world -> result A * world.

Definition ret {A} (a : A) : M A := fun w => (Ok a, w).
Definition raise {A} (e : exn) : M A := fun w => (Raise e, w).
Definition lift {A} (r : result A) : M A := fun w => (r, w).
Definition bind {A B} (m : M A) (k : A -> M B) : M B :=
  fun w => match m w with
           | (Ok a, w') => k a w'
           | (Raise e, w') => (Raise e, w')
           end.

Declare Scope py_scope.
Delimit Scope py_scope with py.
Notation "x <- m ;; k" := (bind m (fun x => k))
  (at level 100, m at next level, right associativity) : py_scope.
Notation "m ;; k" := (bind m (fun _ => k))
  (at level 100, right associativity) : py_scope.
#[local] Open Scope py_scope.

(** A client constructor of the SDK, recorded when it returns. *)
Definition construct `{Sdk} (llm : llm_client) : M llm_client :=
  fun w => match client_error llm with
           | Some e => (Raise e, w)
           | None => (Ok llm, {| ai_service := ai_service w;
                                 calls := (calls w ++ [Construct llm])%list |})
           end.

(** [chain.invoke({"question": q})] *)
Definition invoke `{Sdk} (chain : RunnableSequence) (q : string) : M reply :=
  fun w => (chain_invoke (calls w) chain q,
            {| ai_service := ai_service w;
               calls := (calls w ++ [Invoke chain q])%list |}).

(** [self.chains[key] = chain] *)
Definition store (key : string) (chain : RunnableSequence) : M unit :=
  fun w => (Ok tt,
            {| ai_service := {| chains := <[key := chain]> (chains (ai_service w));
                                config := config (ai_service w) |};
               calls := calls w |}).

(** [self.chains[key]] *)
Definition fetch (key : string) : M RunnableSequence :=
  fun w => match chains (ai_service w) !! key with
           | Some c => (Ok c, w)
           | None => (Raise (KeyError key), w)
           end.

Definition create_prompt_template (custom_template : option string) : PromptTemplate :=
  {| input_variables := ["question"];
     template := if opt_truthy custom_template
                 then default "" custom_template
                 else "Human: {question}" +:+ NL +:+ NL +:+ "Assistant:" |}.

Definition create_ollama_chain `{Sdk} (model : pyval) : M RunnableSequence :=
  fun w =>
    let cfg := config (ai_service w) in
    let model_name := py_or model (PStr (ollama_model cfg)) in
    (llm <- construct (OllamaLLM model_name (ollama_base_url cfg)) ;;
     let prompt := create_prompt_template None in
     ret {| prompt_of := prompt; llm_of := llm |}) w.

Definition create_openai_chain `{Sdk} (model : pyval) : M RunnableSequence :=
  fun w =>
    let cfg := config (ai_service w) in
    if negb (opt_truthy (openai_api_key cfg)) then
      raise (ValueError "OpenAI API key not configured. Please set OPENAI_API_KEY environment variable.") w
    else
      let model_name := py_or model (PStr (openai_model cfg)) in
      (llm <- construct (ChatOpenAI model_name (default "" (openai_api_key cfg))
                                    (openai_base_url cfg)) ;;
       let prompt := create_prompt_template None in
       ret {| prompt_of := prompt; llm_of := llm |}) w.

Definition create_anthropic_chain `{Sdk} (model : pyval) : M RunnableSequence :=
  fun w =>
    let cfg := config (ai_service w) in
    if negb (opt_truthy (anthropic_api_key cfg)) then
      raise (ValueError "Anthropic API key not configured. Please set ANTHROPIC_API_KEY environment variable.") w
    else
      let model_name := py_or model (PStr (anthropic_model cfg)) in
      (llm <- construct (ChatAnthropic model_name (default "" (anthropic_api_key cfg))) ;;
       let prompt := create_prompt_template None in
       ret {| prompt_of := prompt; llm_of := llm |}) w.

(** [f"{provider.value}_{model or 'default'}"] *)
Definition cache_key `{Repr} (provider : ModelProvider) (model : pyval) : string :=
  value provider +:+ "_" +:+ format (py_or model (PStr "default")).

(** The [else: raise ValueError("Unsupported provider")] arm has no
    counterpart: the enumeration has three members. *)
Definition get_chain `{Repr} `{Sdk} (provider : ModelProvider) (model : pyval)
  : M RunnableSequence :=
  fun w =>
    let key := cache_key provider model in
    ((if bool_decide (is_Some (chains (ai_service w) !! key)) then ret tt
      else
        match provider with
        | AUTO => c <- create_ollama_chain model ;; store key c
        | GPT => c <- create_openai_chain model ;; store key c
        | CLAUDE => c <- create_anthropic_chain model ;; store key c
        end) ;;
     fetch key) w.

(** The three arms that turn a response into the returned string. *)
Definition reply_text (r : reply) : string :=
  match r with
  | WithContent content => content
  | Plain s => s
  | Other str => str
  end.

Definition troubleshooting (provider : ModelProvider) : string :=
  match provider with
  | AUTO => NL +:+ NL +:+ "Troubleshooting:" +:+ NL
            +:+ "- Make sure Ollama is running (ollama serve)" +:+ NL
            +:+ "- Check if model is available (ollama list)"
  | GPT => NL +:+ NL +:+ "Troubleshooting:" +:+ NL
           +:+ "- Check OpenAI API key" +:+ NL
           +:+ "- Verify internet connection" +:+ NL
           +:+ "- Check API quotas"
  | CLAUDE => NL +:+ NL +:+ "Troubleshooting:" +:+ NL
              +:+ "- Check Anthropic API key" +:+ NL
              +:+ "- Verify internet connection" +:+ NL
              +:+ "- Check API quotas"
  end.

(** The [except Exception as e] arm of [invoke_model]. *)
Definition error_msg (provider : ModelProvider) (e : exn) : string :=
  ("Error with " +:+ value provider +:+ ": " +:+ str_exn e)
  +:+ troubleshooting provider.

Definition invoke_model `{Repr} `{Sdk} (prompt : string) (provider : ModelProvider)
    (model : pyval) : M string :=
  fun w =>
    match (chain <- get_chain provider model ;;
           response <- invoke chain prompt ;;
           ret (reply_text response)) w with
    | (Ok s, w') => (Ok s, w')
    | (Raise e, w') => (Raise (Exception (error_msg provider e)), w')
    end.

Definition get_ai_response `{Repr} `{Sdk} (prompt model_provider : string)
    (specific_model : pyval) : M string :=
  provider <- lift (ModelProvider_of (lower model_provider)) ;;
  invoke_model prompt provider specific_model.

End ai.

(** ** chatbox_gradio/backend.py *)

Module backend.
Import ai.
#[local] Open Scope py_scope.

(** [flask.request], as far as [chat] looks at it: [get_json] is the parsed
    body. A body that does not parse is outside the model. *)
Record Request := {
  is_json : bool;
  get_json : pyval
}.

Record Response := {
  json : gmap string pyval;
  status_code : Z
}.

(** A dictionary display [{k1: v1, ...}] with distinct keys. *)
Definition dict (items : list (string * pyval)) : gmap string pyval :=
  list_to_map items.

(** [jsonify(d), status]; a bare [jsonify(d)] has status 200. *)
Definition jsonify (d : gmap string pyval) (status : Z) : Response :=
  {| json := d; status_code := status |}.

Definition error_response (msg : string) (status : Z) : Response :=
  jsonify (dict [("error", PStr msg); ("status", PStr "error")]) status.

Definition get_available_models (env : gmap string string) : Response :=
  jsonify
    (dict [("models", PList [
       PDict (dict [("id", PStr "auto");
                    ("name", PStr "Auto (Ollama)");
                    ("provider", PStr "ollama");
                    ("description", PStr "Local Ollama models (qwen3:8b)");
                    ("requires_api_key", PBool false)]);
       PDict (dict [("id", PStr "gpt");
                    ("name", PStr "GPT (OpenAI)");
                    ("provider", PStr "openai");
                    ("description", PStr "OpenAI GPT models");
                    ("requires_api_key", PBool true);
                    ("available", PBool (opt_truthy (env !! "OPENAI_API_KEY")))]);
       PDict (dict [("id", PStr "claude");
                    ("name", PStr "Claude (Anthropic)");
                    ("provider", PStr "anthropic");
                    ("description", PStr "Anthropic Claude models");
                    ("requires_api_key", PBool true);
                    ("available", PBool (opt_truthy (env !! "ANTHROPIC_API_KEY")))])])])
    200.

Definition valid_providers : list string := ["auto"; "gpt"; "claude"].

(** ['prompt' not in data or not data['prompt'].strip()] *)
Definition prompt_missing (data : pyval) : result bool :=
  rbind (py_in "prompt" data) (fun present =>
    if negb present then Ok true
    else rbind (py_getitem data "prompt") (fun p =>
           rbind (py_strip p) (fun s => Ok (negb (str_truthy s))))).

(** The body of the [try] block. The two logger calls leave no trace in the
    response and are left out. *)
Definition chat_try `{Repr} `{Sdk} (request : Request) : M Response :=
  if negb (is_json request) then
    ret (error_response "Request must be JSON" 400)
  else
    let data := get_json request in
    missing <- lift (prompt_missing data) ;;
    if (missing : bool) then
      ret (error_response "Prompt is required and cannot be empty" 400)
    else
      has_model <- lift (py_in "model" data) ;;
      if negb has_model then
        ret (error_response "Model is required" 400)
      else
        p <- lift (py_getitem data "prompt") ;;
        prompt <- lift (py_strip p) ;;
        m <- lift (py_getitem data "model") ;;
        model_provider <- lift (py_lower m) ;;
        specific_model <- lift (py_get data "specific_model") ;;
        if negb (str_in model_provider valid_providers) then
          ret (error_response
                 "Invalid model provider. Must be one of: ['auto', 'gpt', 'claude']"
                 400)
        else
          response <- get_ai_response prompt model_provider specific_model ;;
          ret (jsonify (dict [("response", PStr response);
                              ("model_used", PStr model_provider);
                              ("specific_model", specific_model);
                              ("status", PStr "success")])
                       200).

(** [chat]: the [try] block and its two handlers. *)
Definition chat `{Repr} `{Sdk} (request : Request) (w : world) : Response * world :=
  match chat_try request w with
  | (Ok response, w') => (response, w')
  | (Raise (ValueError msg), w') => (error_response msg 400, w')
  | (Raise e, w') =>
      (error_response ("Failed to process chat request: " +:+ str_exn e) 500, w')
  end.

End backend.

(** ** taiga/main.py *)

Module taiga.

Inductive message : Type :=
| HumanMessage (content : pyval)
| AIMessage (content : pyval).

(** What a call can raise: [KeyboardInterrupt], which [except Exception]
    lets through, or an exception below [Exception]. *)
Inductive raised : Type :=
| KeyboardInterrupt
| Error (e : exn).

Inductive outcome (A : Type) : Type :=
| Returns (a : A)
| Raises (r : raised).
Arguments Returns {A} a.
Arguments Raises {A} r.

(** The terminal, the agent executor and the message classes. [input n] is
    what the [n]-th [input("Enter your task: ")] does and [ainvoke n] what
    [executor.ainvoke] does in that iteration; the executor reads the
    history it is handed and does not update it. [content_error v] is the
    exception, if any, with which [HumanMessage(content=v)] and
    [AIMessage(content=v)] refuse a content. *)
Record Session := {
  input : nat -> outcome string;
  ainvoke : nat -> string -> list message -> outcome pyval;
  content_error : pyval -> option exn
}.

(** How a pass of the loop ends: on to the next pass, out by [break], or
    out of [interactive_mode] with an exception no handler catches. *)
Inductive control : Type :=
| Continue
| Break
| Escapes (e : exn).

(** [result['output'] if isinstance(result, dict) and 'output' in result
     else str(result)] *)
Definition output_of `{Repr} (result : pyval) : pyval :=
  match result with
  | PDict d =>
      match d !! "output" with
      | Some v => v
      | None => PStr (format result)
      end
  | _ => PStr (format result)
  end.

(** [[HumanMessage(content=human), AIMessage(content=ai)]], built left to
    right. *)
Definition turn (s : Session) (human ai : pyval) : result (list message) :=
  match content_error s human with
  | Some e => Raise e
  | None =>
      match content_error s ai with
      | Some e => Raise e
      | None => Ok [HumanMessage human; AIMessage ai]
      end
  end.

(** The [try] block of pass [n]: the value [user_input] holds when the
    block is left, and how it is left. *)
Definition attempt `{Repr} (s : Session) (n : nat) (chat_history : list message)
  : pyval * outcome (list message * control) :=
  match input s n with
  | Raises r => (PNone, Raises r)
  | Returns line =>
      let user_input := strip line in
      if str_in (lower user_input) ["quit"; "exit"; "q"] then
        (PStr user_input, Returns (chat_history, Break))
      else if negb (str_truthy user_input) then
        (PStr user_input, Returns (chat_history, Continue))
      else
        match ainvoke s n user_input chat_history with
        | Raises r => (PStr user_input, Raises r)
        | Returns result =>
            let output := output_of result in
            match turn s (PStr user_input) output with
            | Raise e => (PStr user_input, Raises (Error e))
            | Ok two =>
                (PStr user_input,
                 Returns ((chat_history ++ two)%list, Continue))
            end
        end
  end.

(** Pass [n] through the body of [while True]: the [try] block and its two
    handlers. *)
Definition iteration `{Repr} (s : Session) (n : nat) (chat_history : list message)
  : list message * control :=
  match attempt s n chat_history with
  | (_, Returns (h, c)) => (h, c)
  | (_, Raises KeyboardInterrupt) => (chat_history, Break)
  | (user_input, Raises (Error e)) =>
      match turn s user_input (PStr ("Got error: " +:+ str_exn e)) with
      | Raise e' => (chat_history, Escapes e')
      | Ok two => ((chat_history ++ two)%list, Continue)
      end
  end.

(** [fuel] passes of the loop from pass [n] on; the flag tells whether the
    loop was left. *)
Fixpoint loop `{Repr} (s : Session) (fuel n : nat) (chat_history : list message)
  : list message * bool :=
  match fuel with
  | O => (chat_history, false)
  | S fuel' =>
      match iteration s n chat_history with
      | (h, Continue) => loop s fuel' (S n) h
      | (h, _) => (h, true)
      end
  end.

(** [chat_history = []], then the loop. *)
Definition interactive_mode `{Repr} (s : Session) (fuel : nat) : list message * bool :=
  loop s fuel 0%nat [].

End taiga.

(** ** chatbox_gradio/ai.py, the interactive [main] *)

Module ai_cli.
Import ai.

(** Where the loop stands: how many [input()] calls were made, the
    provider in use, the service and the SDK trace. What the loop prints is
    left out. *)
Record State := {
  reads : nat;
  current_provider : ModelProvider;
  world_of : world
}.

(** How a pass ends: on to the next pass, out by [break], or out of [main]
    with what [input()] raised, which no handler catches. *)
Inductive step : Type :=
| Next (st : State)
| Done (st : State)
| Escaped (r : taiga.raised) (st : State).

(** One pass through the body of [while True]; [input n] is what the
    [n]-th call of [input()] does. *)
Definition pass `{Repr} `{Sdk} (input : nat -> taiga.outcome string) (st : State)
  : step :=
  match input (reads st) with
  | taiga.Raises r => Escaped r st
  | taiga.Returns line =>
      let user_input := strip line in
      if str_in (lower user_input) ["quit"; "exit"; "q"] then
        Done {| reads := S (reads st);
                current_provider := current_provider st;
                world_of := world_of st |}
      else if String.eqb (lower user_input) "switch" then
        match input (S (reads st)) with
        | taiga.Raises r =>
            Escaped r {| reads := S (reads st);
                         current_provider := current_provider st;
                         world_of := world_of st |}
        | taiga.Returns line2 =>
            let new_provider := lower (strip line2) in
            match ModelProvider_of new_provider with
            | Ok p =>
                Next {| reads := S (S (reads st));
                        current_provider := p;
                        world_of := world_of st |}
            | Raise _ =>
                Next {| reads := S (S (reads st));
                        current_provider := current_provider st;
                        world_of := world_of st |}
            end
        end
      else if negb (str_truthy user_input) then
        Next {| reads := S (reads st);
                current_provider := current_provider st;
                world_of := world_of st |}
      else
        Next {| reads := S (reads st);
                current_provider := current_provider st;
                world_of := snd (invoke_model user_input (current_provider st)
                                   PNone (world_of st)) |}
  end.

(** [fuel] passes of the loop. *)
Fixpoint passes `{Repr} `{Sdk} (input : nat -> taiga.outcome string) (fuel : nat)
    (st : State) : step :=
  match fuel with
  | O => Next st
  | S fuel' =>
      match pass input st with
      | Next st' => passes input fuel' st'
      | ended => ended
      end
  end.

(** [current_provider = ModelProvider.AUTO], then the loop, on the service
    imported under [env]. *)
Definition main `{Repr} `{Sdk} (env : gmap string string)
    (input : nat -> taiga.outcome string) (fuel : nat) : step :=
  passes input fuel {| reads := 0; current_provider := AUTO; world_of := init env |}.

(** The state a step carries. *)
Definition state_of (s : step) : State :=
  match s with Next st | Done st | Escaped _ st => st end.

End ai_cli.

(** ** ollama/main.py *)

Module ollama_script.
Import ai.

Definition llm : llm_client := OllamaLLM (PStr "qwen3:8b") "http://localhost:11434".

(** [prompt | llm]: the client first, then the template, then the chain. *)
Definition create_ollama_chain `{Sdk} (trace : list sdk_call)
  : result RunnableSequence * list sdk_call :=
  match client_error llm with
  | Some e => (Raise e, trace)
  | None =>
      (Ok {| prompt_of :=
               {| input_variables := ["question"];
                  template := "Human: {question}" +:+ NL +:+ NL +:+ "Assistant:" |};
             llm_of := llm |},
       (trace ++ [Construct llm])%list)
  end.

(** How [main] ends: by [break], by the handler of [KeyboardInterrupt], by
    the handler of [Exception] around the whole loop, or not within the
    passes allowed. *)
Inductive ending : Type :=
| Goodbye
| Interrupted
| Failed (e : exn)
| Running.

(** [fuel] passes of the loop from the [n]-th [input()] on. An exception of
    [chain.invoke] is caught inside the loop; one of [input()] ends it. *)
Fixpoint loop `{Sdk} (chain : RunnableSequence) (input : nat -> taiga.outcome string)
    (fuel n : nat) (trace : list sdk_call) : ending * list sdk_call :=
  match fuel with
  | O => (Running, trace)
  | S fuel' =>
      match input n with
      | taiga.Raises taiga.KeyboardInterrupt => (Interrupted, trace)
      | taiga.Raises (taiga.Error e) => (Failed e, trace)
      | taiga.Returns line =>
          let user_input := strip line in
          if str_in (lower user_input) ["quit"; "exit"; "q"] then (Goodbye, trace)
          else if negb (str_truthy user_input) then loop chain input fuel' (S n) trace
          else
            let response := chain_invoke trace chain user_input in
            loop chain input fuel' (S n) (trace ++ [Invoke chain user_input])%list
      end
  end.

Definition main `{Sdk} (input : nat -> taiga.outcome string) (fuel : nat)
  : ending * list sdk_call :=
  match create_ollama_chain [] with
  | (Raise e, trace) => (Failed e, trace)
  | (Ok chain, trace) => loop chain input fuel 0 trace
  end.

End ollama_script.

(** ** chatbox_gradio/frontend.py *)

Module frontend.

(** [requests.Response], as far as the frontend looks at it; [json] is what
    [response.json()] does. *)
Record HttpResponse := {
  status_code : Z;
  json : result pyval
}.

(** [requests.post(f"{BACKEND_URL}/api/chat", json=payload, timeout=180)],
    by its payload. *)
Class Http := requests_post : pyval -> result HttpResponse.

(** [v.get(key, dflt)] *)
Definition py_get_default (v : pyval) (key : string) (dflt : pyval) : result pyval :=
  match v with
  | PDict d => Ok (default dflt (d !! key))
  | _ => no_attribute v "get"
  end.

(** The [try] block of [send_chat_request]. *)
Definition send_chat_request_try `{Repr} `{Http} (prompt model : string)
  : result pyval :=
  rbind (requests_post (PDict (backend.dict [("prompt", PStr prompt);
                                             ("model", PStr model)])))
    (fun response =>
       if status_code response =? 200 then
         rbind (json response) (fun body =>
           py_get_default body "response" (PStr "No response"))
       else
         rbind (json response) (fun body =>
           rbind (py_get_default body "error" (PStr "Unknown error")) (fun e =>
             Ok (PStr ("Error: " +:+ format e))))).

Definition send_chat_request `{Repr} `{Http} (prompt model : string) : pyval :=
  match send_chat_request_try prompt model with
  | Ok v => v
  | Raise e => PStr ("Connection error: " +:+ str_exn e)
  end.

(** ["auto" if "Ollama" in model else "gpt" if "GPT" in model else "claude"] *)
Definition model_id (model : string) : string :=
  if contains "Ollama" model then "auto"
  else if contains "GPT" model then "gpt"
  else "claude".

(** [history[-1][1] = response]; [None] stands for the [IndexError] of an
    empty history or of a last row shorter than two. *)
Definition set_last_reply (response : pyval) (history : list (list pyval))
  : option (list (list pyval)) :=
  match history with
  | [] => None
  | _ =>
      let i := (length history - 1)%nat in
      match history !! i with
      | Some row =>
          if (1 <? length row)%nat then Some (<[i := <[1%nat := response]> row]> history)
          else None
      | None => None
      end
  end.

(** [chat_fn]; [thinking] is the text of the placeholder row. The list
    returned is the list passed in, updated in place. *)
Definition chat_fn `{Repr} `{Http} (thinking : string) (message : string)
    (history : list (list pyval)) (model : string)
  : option (list (list pyval) * string) :=
  if negb (str_truthy (strip message)) then Some (history, "")
  else
    let model_id := model_id model in
    let history1 := (history ++ [[PStr message; PStr thinking]])%list in
    let response := send_chat_request message model_id in
    match set_last_reply response history1 with
    | Some history2 => Some (history2, "")
    | None => None
    end.

End frontend.

(** * Vocabulary of the statements *)

Module facts.
Import ai backend taiga.

(** The dispatch on the provider inside [get_chain]. *)
Definition create_chain `{Sdk} (p : ModelProvider) (m : pyval) : M RunnableSequence :=
  match p with
  | AUTO => create_ollama_chain m
  | GPT => create_openai_chain m
  | CLAUDE => create_anthropic_chain m
  end.

(** Whether [create_chain] gets past its API-key guard. *)
Definition key_configured (cfg : Config) (p : ModelProvider) : bool :=
  match p with
  | AUTO => true
  | GPT => opt_truthy (openai_api_key cfg)
  | CLAUDE => opt_truthy (anthropic_api_key cfg)
  end.

(** The environment variable a provider takes its API key from. *)
Definition key_variable (p : ModelProvider) : option string :=
  match p with
  | AUTO => None
  | GPT => Some "OPENAI_API_KEY"
  | CLAUDE => Some "ANTHROPIC_API_KEY"
  end.

Definition missing_key (p : ModelProvider) : exn :=
  match p with
  | CLAUDE => ValueError "Anthropic API key not configured. Please set ANTHROPIC_API_KEY environment variable."
  | _ => ValueError "OpenAI API key not configured. Please set OPENAI_API_KEY environment variable."
  end.

(** The model a provider falls back to. *)
Definition default_model (cfg : Config) (p : ModelProvider) : string :=
  match p with
  | AUTO => ollama_model cfg
  | GPT => openai_model cfg
  | CLAUDE => anthropic_model cfg
  end.

(** The model name [create_chain] hands to the client. *)
Definition model_of (llm : llm_client) : pyval :=
  match llm with
  | OllamaLLM model _ | ChatOpenAI model _ _ | ChatAnthropic model _ => model
  end.

(** The chain [create_chain] assembles once past the guard. *)
Definition built (cfg : Config) (p : ModelProvider) (m : pyval) : RunnableSequence :=
  {| prompt_of := create_prompt_template None;
     llm_of :=
       match p with
       | AUTO => OllamaLLM (py_or m (PStr (ollama_model cfg))) (ollama_base_url cfg)
       | GPT => ChatOpenAI (py_or m (PStr (openai_model cfg)))
                           (default "" (openai_api_key cfg)) (openai_base_url cfg)
       | CLAUDE => ChatAnthropic (py_or m (PStr (anthropic_model cfg)))
                                 (default "" (anthropic_api_key cfg))
       end |}.

(** What [create_chain] comes to: the guard, then the client constructor. *)
Definition creation `{Sdk} (cfg : Config) (p : ModelProvider) (m : pyval)
  : result RunnableSequence :=
  if key_configured cfg p then
    match client_error (llm_of (built cfg p m)) with
    | Some e => Raise e
    | None => Ok (built cfg p m)
    end
  else Raise (missing_key p).

(** The world after more SDK calls. *)
Definition traced (new : list sdk_call) (w : world) : world :=
  {| ai_service := ai_service w; calls := (calls w ++ new)%list |}.

(** The world after [self.chains[key] = c]. *)
Definition stored (key : string) (c : RunnableSequence) (w : world) : world :=
  {| ai_service := {| chains := <[key := c]> (chains (ai_service w));
                      config := config (ai_service w) |};
     calls := calls w |}.

Definition is_construct (c : sdk_call) : bool :=
  match c with Construct _ => true | Invoke _ _ => false end.

Definition is_invoke (c : sdk_call) : bool :=
  match c with Construct _ => false | Invoke _ _ => true end.

(** How many clients a trace builds, how many times it calls a chain. *)
Definition constructions (t : list sdk_call) : nat := length (filter is_construct t).
Definition invocations (t : list sdk_call) : nat := length (filter is_invoke t).

(** A run of [get_chain] calls, results dropped. *)
Fixpoint get_chains `{Repr} `{Sdk} (reqs : list (ModelProvider * pyval)) (w : world) : world :=
  match reqs with
  | [] => w
  | (p, m) :: rest => get_chains rest (snd (get_chain p m w))
  end.

(** The product a provider's troubleshooting lines name. *)
Definition product (p : ModelProvider) : string :=
  match p with AUTO => "Ollama" | GPT => "OpenAI" | CLAUDE => "Anthropic" end.

(** *** The handler [chat], as the interface describes it *)

(** What the interface makes of a JSON object: a request to pass on, with
    the prompt stripped and the provider named; a request to turn down with
    a message; a field of the wrong type, with the exception it runs into. *)
Inductive verdict : Type :=
| Accepted (prompt : string) (provider : ModelProvider)
| Rejected (msg : string)
| IllTyped (e : exn).

Definition validate (d : gmap string pyval) : verdict :=
  match d !! "prompt" with
  | None => Rejected "Prompt is required and cannot be empty"
  | Some (PStr s) =>
      if negb (str_truthy (strip s)) then
        Rejected "Prompt is required and cannot be empty"
      else
        match d !! "model" with
        | None => Rejected "Model is required"
        | Some (PStr m) =>
            match ModelProvider_of (lower m) with
            | Ok p => Accepted (strip s) p
            | Raise _ =>
                Rejected "Invalid model provider. Must be one of: ['auto', 'gpt', 'claude']"
            end
        | Some v =>
            IllTyped (AttributeError
                        ("'" +:+ type_name v +:+ "' object has no attribute 'lower'"))
        end
  | Some v =>
      IllTyped (AttributeError
                  ("'" +:+ type_name v +:+ "' object has no attribute 'strip'"))
  end.

(** The response the interface promises for a JSON object. *)
Definition respond `{Repr} `{Sdk} (d : gmap string pyval) (w : world)
  : Response * world :=
  match validate d with
  | Rejected msg => (error_response msg 400, w)
  | IllTyped e =>
      (error_response ("Failed to process chat request: " +:+ str_exn e) 500, w)
  | Accepted prompt p =>
      let specific_model := default PNone (d !! "specific_model") in
      match invoke_model prompt p specific_model w with
      | (Ok answer, w') =>
          (jsonify (dict [("response", PStr answer);
                          ("model_used", PStr (value p));
                          ("specific_model", specific_model);
                          ("status", PStr "success")]) 200, w')
      | (Raise e, w') =>
          (error_response ("Failed to process chat request: " +:+ str_exn e) 500, w')
      end
  end.

(** Validation as the specification words it: a non-empty prompt string and
    a model in the set. *)
Definition stated_valid (d : gmap string pyval) : bool :=
  match d !! "prompt", d !! "model" with
  | Some (PStr s), Some (PStr m) => str_truthy s && str_in m valid_providers
  | _, _ => false
  end.

(** Empty or made of white space only. *)
Definition whitespace_only (s : string) : bool :=
  forallb isspace (list_ascii_of_string s).

Definition is_str (v : pyval) : bool :=
  match v with PStr _ => true | _ => false end.

(** A JSON body that has the key, as the specification reads it: a key of
    the object the body is; a body that is no object has no keys. *)
Definition has_key (k : string) (body : pyval) : bool :=
  match body with
  | PDict d => bool_decide (is_Some (d !! k))
  | _ => false
  end.

(** The keys of a response body. *)
Definition keys (r : Response) : gset string := dom (json r).

(** The entries of [GET /api/models], by position. *)
Definition model_entries (r : Response) : list (gmap string pyval) :=
  match json r !! "models" with
  | Some (PList l) =>
      omap (fun v => match v with PDict d => Some d | _ => None end) l
  | _ => []
  end.

(** The [available] flag as the specification words it: true exactly when
    the variable is set. *)
Definition stated_available (env : gmap string string) (var : string)
    (entry : gmap string pyval) : Prop :=
  entry !! "available" = Some (PBool (bool_decide (is_Some (env !! var)))).

(** The worlds the backend process goes through: the service as imported
    under [env], then one request or one direct [invoke_model] at a time. *)
Inductive served `{Repr} `{Sdk} (env : gmap string string) : world -> Prop :=
| served_init : served env (init env)
| served_chat request w : served env w -> served env (snd (chat request w))
| served_invoke prompt p m w :
    served env w -> served env (snd (invoke_model prompt p m w)).

(** No chain is cached for a provider whose API key is not configured. *)
Definition guarded `{Repr} `{Sdk} (w : world) : Prop :=
  forall p m, key_configured (config (ai_service w)) p = false ->
              chains (ai_service w) !! cache_key p m = None.

(** Every chain in the cache is one that [create_chain] assembled from the
    configuration, for some model name that gives the key it sits under. *)
Definition assembled `{Repr} (w : world) : Prop :=
  forall k c, chains (ai_service w) !! k = Some c ->
    exists p m, k = cache_key p m /\ c = built (config (ai_service w)) p m.

(** *** The agent loop *)



End facts.
Import facts.

(** A runtime to evaluate the model with: every chain answers by repeating
    the question, and [str] of a non-string names its type. *)
Module sample.
Import ai.

Definition repr : Repr := fun v => "<" +:+ type_name v +:+ ">".

Definition echo : Sdk :=
  {| client_error := fun _ => None;
     chain_invoke := fun _ _ q => Ok (Plain ("echo: " +:+ q)) |}.

Definition offline : Sdk :=
  {| client_error := fun _ => None;
     chain_invoke := fun _ _ _ => Raise (Exception "Connection refused") |}.

(** A request with a JSON body made of the given fields. *)
Definition post (fields : list (string * pyval)) : backend.Request :=
  {| backend.is_json := true; backend.get_json := PDict (backend.dict fields) |}.

(** A session at the terminal: a task the agent answers, an empty line, a
    task the agent fails on, then [quit]; the message classes take any
    content. *)
Definition session : taiga.Session :=
  {| taiga.input := fun n =>
       match n with
       | 0%nat => taiga.Returns "  show me all projects "
       | 1%nat => taiga.Returns "   "
       | 2%nat => taiga.Returns "delete everything"
       | _ => taiga.Returns "Quit"
       end;
     taiga.ainvoke := fun n task _ =>
       match n with
       | 2%nat => taiga.Raises (taiga.Error (Exception "tool call refused"))
       | _ => taiga.Returns
                (PDict (backend.dict [("input", PStr task);
                                      ("output", PStr "2 projects")]))
       end;
     taiga.content_error := fun _ => None |}.

End sample.

(** * Vocabulary of the further statements *)

Module more_facts.
Import ai backend.

(** [model or 'default'] for a model name that is a string or [None]. *)
Definition key_name (name : option string) : string :=
  match name with
  | Some (String c s) => String c s
  | _ => "default"
  end.

(** Calls of [get_chain] whose model is a string or [None]. *)
Definition typed (reqs : list (ModelProvider * option string))
  : list (ModelProvider * pyval) :=
  map (fun r => (fst r, of_optional (snd r))) reqs.

(** The questions a trace hands to [chain.invoke], in order. *)
Definition asked (t : list sdk_call) : list string :=
  omap (fun c => match c with Invoke _ q => Some q | Construct _ => None end) t.

(** A question that is not empty and has no white space around it. *)
Definition clean (q : string) : Prop := q <> "" /\ strip q = q.

(** The worlds a backend goes through that serves requests and nothing
    else. *)
Inductive served_http `{Repr} `{Sdk} (env : gmap string string) : world -> Prop :=
| served_http_init : served_http env (init env)
| served_http_chat request w :
    served_http env w -> served_http env (snd (chat request w)).

Definition is_dict (v : pyval) : bool :=
  match v with PDict _ => true | _ => false end.

(** The three cache keys of calls without a model name. *)
Definition default_keys : gset string :=
  list_to_set ["auto_default"; "gpt_default"; "claude_default"].

(** A transport that hands the payload to [chat] on the world [w] and the
    answer back, as Flask does for a request with a JSON body. *)
Definition loopback `{Repr} `{Sdk} (w : world) : frontend.Http :=
  fun payload =>
    let r := fst (chat {| is_json := true; get_json := payload |} w) in
    Ok {| frontend.status_code := status_code r;
          frontend.json := Ok (PDict (json r)) |}.

(** A transport that cannot reach the backend. *)
Definition unreachable : frontend.Http :=
  fun _ => Raise (Exception "Connection refused").

(** The lines typed at a terminal, one per [input()], with [quit] once
    they run out. *)
Definition typed_lines (lines : list string) : nat -> taiga.outcome string :=
  fun n => taiga.Returns (default "quit" (lines !! n)).

(** The chains in the cache are the ones [create_chain] assembles for the
    key they sit under. *)
Definition sound `{Repr} (w : world) : Prop :=
  forall k c, chains (ai_service w) !! k = Some c ->
    exists p name, k = cache_key p (of_optional name)
                   /\ c = built (config (ai_service w)) p (of_optional name).

(** The words the loops take as commands, not as questions. *)
Definition quit_words : list string := ["quit"; "exit"; "q"].

(** A question the interactive loops may hand to a chain: clean, and no
    command once in lower case. *)
Definition question (commands : list string) (q : string) : Prop :=
  clean q /\ str_in (lower q) commands = false.

(** A character that [repr] leaves as it is between apostrophes, and a
    string made of such characters. *)
Definition plain_char (c : ascii) : bool :=
  isprintable c && negb (Ascii.eqb c "'") && negb (Ascii.eqb c "\").

Definition plain (s : string) : bool :=
  forallb plain_char (list_ascii_of_string s).

End more_facts.
Import more_facts.

(** * Properties *)

(** ** Strings *)

Section strings.

Lemma app_cons (a : ascii) (s t : string) : String a s +:+ t = String a (s +:+ t).
Proof. reflexivity. Qed.

Lemma prefix_nil (s : string) : String.prefix "" s = true.
Proof. destruct s; reflexivity. Qed.

Lemma prefix_cons (a : ascii) (s t : string) :
  String.prefix (String a s) (String a t) = String.prefix s t.
Proof. simpl. destruct (ascii_dec a a); [reflexivity | congruence]. Qed.

Lemma prefix_app_l (sub s t : string) :
  String.prefix sub s = true -> String.prefix sub (s +:+ t) = true.
Proof.
  revert sub. induction s as [|b s IH]; intros sub Hp.
  - destruct sub; [apply prefix_nil | discriminate].
  - destruct sub as [|a sub]; [reflexivity |].
    rewrite app_cons. simpl in *.
    destruct (ascii_dec a b); [auto | discriminate].
Qed.

Lemma prefix_refl (s : string) : String.prefix s s = true.
Proof. induction s; [reflexivity | by rewrite prefix_cons]. Qed.

Lemma contains_prefix (sub s : string) :
  String.prefix sub s = true -> contains sub s = true.
Proof. intros Hp. destruct s; simpl in *; rewrite Hp; reflexivity. Qed.

Lemma contains_app_l (sub s t : string) :
  contains sub s = true -> contains sub (s +:+ t) = true.
Proof.
  induction s as [|b s IH]; intros Hc.
  - apply contains_prefix, (prefix_app_l sub "" t).
    simpl in Hc. by rewrite orb_false_r in Hc.
  - rewrite app_cons.
    change (String.prefix sub (String b s)
            || contains sub s = true) in Hc.
    change (String.prefix sub (String b (s +:+ t))
            || contains sub (s +:+ t) = true).
    apply orb_true_iff in Hc as [Hp | Hc]; apply orb_true_iff.
    + left. rewrite <- app_cons. by apply prefix_app_l.
    + right. auto.
Qed.

Lemma contains_app_r (sub s t : string) :
  contains sub t = true -> contains sub (s +:+ t) = true.
Proof.
  intros Hc. induction s as [|b s IH]; [exact Hc |].
  rewrite app_cons.
  change (String.prefix sub (String b (s +:+ t)) || contains sub (s +:+ t) = true).
  rewrite IH. apply orb_true_r.
Qed.

Lemma contains_refl (s : string) : contains s s = true.
Proof. apply contains_prefix, prefix_refl. Qed.

(** A string sits inside whatever is put before and after it. *)
Lemma contains_middle (pre sub post : string) :
  contains sub (pre +:+ sub +:+ post) = true.
Proof. apply contains_app_r, contains_app_l, contains_refl. Qed.

Lemma lstrip_blank (s : string) :
  lstrip s = "" <-> forallb isspace (list_ascii_of_string s) = true.
Proof.
  induction s as [|c s IH]; simpl; [done |].
  destruct (isspace c); simpl; [exact IH | split; discriminate].
Qed.

Lemma lstrip_head (s : string) (c : ascii) (r : string) :
  lstrip s = String c r -> isspace c = false.
Proof.
  induction s as [|a s IH]; simpl; [discriminate |].
  destruct (isspace a) eqn:Ha; [exact IH |].
  intros [= <- _]. exact Ha.
Qed.

Lemma rstrip_head (c : ascii) (r : string) :
  isspace c = false -> rstrip (String c r) <> "".
Proof.
  intros Hc. simpl. destruct (rstrip r); [rewrite Hc|]; discriminate.
Qed.

(** [strip] leaves nothing exactly when every character is white space. *)
Lemma strip_blank (s : string) :
  strip s = "" <-> forallb isspace (list_ascii_of_string s) = true.
Proof.
  rewrite <- lstrip_blank. unfold strip.
  destruct (lstrip s) as [|c r] eqn:Hl; [done |].
  split; [| discriminate].
  intros Hr. exfalso. by eapply rstrip_head; [eapply lstrip_head |].
Qed.



Lemma opt_truthy_true (o : option string) :
  opt_truthy o = true <-> exists s, o = Some s /\ s <> "".
Proof.
  destruct o as [[|c s]|]; simpl; split; try discriminate.
  - intros (s & [= <-] & Hs). congruence.
  - intros _. eexists; split; [reflexivity | discriminate].
  - intros _. reflexivity.
  - intros (s & Hs & _). discriminate.
Qed.

Lemma str_in_spec (x : string) (l : list string) : str_in x l = true <-> x ∈ l.
Proof.
  unfold str_in. rewrite existsb_exists. split.
  - intros (y & Hy & Heq). apply String.eqb_eq in Heq as ->.
    by apply list_elem_of_In.
  - intros Hx. exists x. split; [by apply list_elem_of_In | apply String.eqb_refl].
Qed.

End strings.

(** ** The chain cache of [AIService] *)

Section cache.
Import ai.
Context `{Repr} `{Sdk}.

Lemma create_chain_spec (p : ModelProvider) (m : pyval) (w : world) :
  create_chain p m w =
  match creation (config (ai_service w)) p m with
  | Ok c => (Ok c, traced [Construct (llm_of c)] w)
  | Raise e => (Raise e, w)
  end.
Proof.
  unfold creation.
  destruct p; simpl;
    [unfold create_ollama_chain
    |unfold create_openai_chain; destruct (opt_truthy _); simpl; [| reflexivity]
    |unfold create_anthropic_chain; destruct (opt_truthy _); simpl; [| reflexivity]];
    unfold bind, construct; by destruct (client_error _).
Qed.

(** [get_chain] as one case distinction: a hit, a miss that builds and
    stores, a miss that fails. *)
Lemma get_chain_spec (p : ModelProvider) (m : pyval) (w : world) :
  get_chain p m w =
  match chains (ai_service w) !! cache_key p m with
  | Some c => (Ok c, w)
  | None =>
      match create_chain p m w with
      | (Ok c, w1) => (Ok c, stored (cache_key p m) c w1)
      | (Raise e, w1) => (Raise e, w1)
      end
  end.
Proof.
  unfold get_chain, bind.
  destruct (chains (ai_service w) !! cache_key p m) as [c|] eqn:Hk.
  - rewrite bool_decide_true by eauto. unfold ret, fetch. by rewrite Hk.
  - rewrite bool_decide_false by (intros [? ?]; congruence).
    destruct p; simpl;
      [destruct (create_ollama_chain m w) as [[c|e] w1]
      |destruct (create_openai_chain m w) as [[c|e] w1]
      |destruct (create_anthropic_chain m w) as [[c|e] w1]];
      try reflexivity;
      unfold store, fetch, stored; simpl; by rewrite lookup_insert_eq.
Qed.

Lemma get_chain_hit (p : ModelProvider) (m : pyval) (w : world) c :
  chains (ai_service w) !! cache_key p m = Some c -> get_chain p m w = (Ok c, w).
Proof. intros Hk. by rewrite get_chain_spec, Hk. Qed.

Lemma get_chain_miss (p : ModelProvider) (m : pyval) (w : world) :
  chains (ai_service w) !! cache_key p m = None ->
  get_chain p m w =
  match creation (config (ai_service w)) p m with
  | Ok c => (Ok c, stored (cache_key p m) c (traced [Construct (llm_of c)] w))
  | Raise e => (Raise e, w)
  end.
Proof.
  intros Hk. rewrite get_chain_spec, Hk, create_chain_spec.
  by destruct (creation _ p m).
Qed.

(** The two ways [get_chain] goes, with the world it leaves. *)
Lemma get_chain_cases (p : ModelProvider) (m : pyval) (w : world) :
  (exists c, chains (ai_service w) !! cache_key p m = Some c
             /\ get_chain p m w = (Ok c, w))
  \/ (chains (ai_service w) !! cache_key p m = None
      /\ ((exists c, creation (config (ai_service w)) p m = Ok c
                     /\ get_chain p m w
                        = (Ok c, stored (cache_key p m) c
                                   (traced [Construct (llm_of c)] w)))
          \/ (exists e, creation (config (ai_service w)) p m = Raise e
                        /\ get_chain p m w = (Raise e, w)))).
Proof.
  destruct (chains (ai_service w) !! cache_key p m) as [c|] eqn:Hkey.
  - left. exists c. split; [done | by apply get_chain_hit].
  - right. split; [done |]. rewrite (get_chain_miss _ _ _ Hkey).
    destruct (creation _ p m) as [c|e]; [left | right]; eauto.
Qed.

Lemma get_chain_keeps (p : ModelProvider) (m : pyval) (w : world) k c :
  chains (ai_service w) !! k = Some c ->
  chains (ai_service (snd (get_chain p m w))) !! k = Some c.
Proof.
  intros Hk.
  destruct (get_chain_cases p m w)
    as [(c' & _ & ->) | (Hkey & [(c' & _ & ->) | (e & _ & ->)])]; simpl; try done.
  rewrite lookup_insert_ne; [done | congruence].
Qed.

Lemma get_chain_config (p : ModelProvider) (m : pyval) (w : world) :
  config (ai_service (snd (get_chain p m w))) = config (ai_service w).
Proof.
  by destruct (get_chain_cases p m w)
    as [(c' & _ & ->) | (Hkey & [(c' & _ & ->) | (e & _ & ->)])].
Qed.

Lemma get_chains_keeps reqs (w : world) k c :
  chains (ai_service w) !! k = Some c ->
  chains (ai_service (get_chains reqs w)) !! k = Some c.
Proof.
  revert w. induction reqs as [|[p m] reqs IH]; intros w Hk; [done |].
  simpl. by apply IH, get_chain_keeps.
Qed.

Lemma constructions_app (t u : list sdk_call) :
  constructions (t ++ u) = (constructions t + constructions u)%nat.
Proof. unfold constructions. by rewrite filter_app, length_app. Qed.

Lemma invocations_app (t u : list sdk_call) :
  invocations (t ++ u) = (invocations t + invocations u)%nat.
Proof. unfold invocations. by rewrite filter_app, length_app. Qed.

(** Every client that was built sits in the cache. *)
Lemma get_chain_counts (p : ModelProvider) (m : pyval) (w : world) :
  constructions (calls w) = size (chains (ai_service w)) ->
  constructions (calls (snd (get_chain p m w)))
  = size (chains (ai_service (snd (get_chain p m w)))).
Proof.
  intros Hw.
  destruct (get_chain_cases p m w)
    as [(c' & _ & ->) | (Hkey & [(c' & _ & ->) | (e & _ & ->)])]; simpl; try done.
  rewrite constructions_app, map_size_insert_None, Hw by done.
  unfold constructions. simpl. apply Nat.add_1_r.
Qed.

Lemma get_chains_counts reqs (w : world) :
  constructions (calls w) = size (chains (ai_service w)) ->
  constructions (calls (get_chains reqs w))
  = size (chains (ai_service (get_chains reqs w))).
Proof.
  revert w. induction reqs as [|[p m] reqs IH]; intros w Hw; [done |].
  simpl. by apply IH, get_chain_counts.
Qed.

(** [invoke_model] as one case distinction. *)
Lemma invoke_model_spec (prompt : string) (p : ModelProvider) (m : pyval) (w : world) :
  invoke_model prompt p m w =
  match get_chain p m w with
  | (Raise e, w1) => (Raise (Exception (error_msg p e)), w1)
  | (Ok chain, w1) =>
      match chain_invoke (calls w1) chain prompt with
      | Ok r => (Ok (reply_text r), traced [Invoke chain prompt] w1)
      | Raise e => (Raise (Exception (error_msg p e)), traced [Invoke chain prompt] w1)
      end
  end.
Proof.
  unfold invoke_model, bind.
  destruct (get_chain p m w) as [[chain|e] w1]; [| reflexivity].
  unfold invoke, ret, traced. by destruct (chain_invoke _ _ _).
Qed.

End cache.

(** ** Claims about the cache and the router *)

Section router.
Import ai.
Context `{Repr} `{Sdk}.

Lemma cache_key_optional (p : ModelProvider) (name : option string) :
  cache_key p (of_optional name)
  = value p +:+ "_" +:+ match name with
                        | Some (String c s) => String c s
                        | _ => "default"
                        end.
Proof. by destruct name as [[|c s]|]. Qed.

(** C7. [get_chain] builds a chain at most once per cache key, the provider
    value followed by the model name or by [default]: a call that finds the
    key returns the stored chain and changes nothing; a call that succeeds
    leaves its chain stored under the key; after it, whatever calls come in
    between, the same call returns that chain and builds nothing; no call
    replaces an entry; and over a run from the fresh service the clients
    built are as many as the entries. *)
Theorem get_chain_builds_once (p : ModelProvider) (m : pyval) (w : world) :
  (forall name, cache_key p (of_optional name)
                = value p +:+ "_" +:+ match name with
                                      | Some (String c s) => String c s
                                      | _ => "default"
                                      end)
  /\ (forall c, chains (ai_service w) !! cache_key p m = Some c ->
                get_chain p m w = (Ok c, w))
  /\ (forall c w1, get_chain p m w = (Ok c, w1) ->
                   chains (ai_service w1) !! cache_key p m = Some c)
  /\ (forall c w1, chains (ai_service w) !! cache_key p m = None ->
                   get_chain p m w = (Ok c, w1) ->
                   chains (ai_service w1) = <[cache_key p m := c]> (chains (ai_service w))
                   /\ calls w1 = (calls w ++ [Construct (llm_of c)])%list)
  /\ (forall c w1 between, get_chain p m w = (Ok c, w1) ->
                           get_chain p m (get_chains between w1)
                           = (Ok c, get_chains between w1))
  /\ (forall k c, chains (ai_service w) !! k = Some c ->
                  chains (ai_service (snd (get_chain p m w))) !! k = Some c)
  /\ (forall env reqs,
        constructions (calls (get_chains reqs (init env)))
        = size (chains (ai_service (get_chains reqs (init env))))).
Proof.
  assert (Hstored : forall c w1, get_chain p m w = (Ok c, w1) ->
                      chains (ai_service w1) !! cache_key p m = Some c).
  { intros c w1.
    destruct (get_chain_cases p m w)
      as [(c' & Hkey & ->) | (Hkey & [(c' & _ & ->) | (e & _ & ->)])];
      [| | discriminate]; intros [= <- <-]; [done |].
    simpl. apply lookup_insert_eq. }
  assert (Hfresh : forall c w1, chains (ai_service w) !! cache_key p m = None ->
                     get_chain p m w = (Ok c, w1) ->
                     chains (ai_service w1) = <[cache_key p m := c]> (chains (ai_service w))
                     /\ calls w1 = (calls w ++ [Construct (llm_of c)])%list).
  { intros c w1 Hkey. rewrite (get_chain_miss _ _ _ Hkey).
    destruct (creation _ p m); [| discriminate]. by intros [= <- <-]. }
  split; [apply cache_key_optional |].
  split; [apply get_chain_hit |].
  split; [exact Hstored |].
  split; [exact Hfresh |].
  split; [| split].
  - intros c w1 between Hc.
    apply get_chain_hit, get_chains_keeps, (Hstored _ _ Hc).
  - apply get_chain_keeps.
  - intros env reqs. by apply get_chains_counts.
Qed.

(** The empty string is falsy, so [model or x] is [x] for it as for [None]. *)
Lemma built_empty (cfg : Config) (p : ModelProvider) :
  built cfg p (PStr "") = built cfg p PNone.
Proof. by destruct p. Qed.

Lemma create_chain_empty (p : ModelProvider) (w : world) :
  create_chain p (PStr "") w = create_chain p PNone w.
Proof. rewrite !create_chain_spec. unfold creation. by rewrite built_empty. Qed.

Lemma get_chain_empty (p : ModelProvider) (w : world) :
  get_chain p (PStr "") w = get_chain p PNone w.
Proof. rewrite !get_chain_spec, !create_chain_empty. reflexivity. Qed.

Lemma troubleshooting_names_product (p q : ModelProvider) :
  contains (product q) (troubleshooting p) = bool_decide (p = q).
Proof. by destruct p, q. Qed.

Lemma error_msg_contains (p : ModelProvider) (e : exn) :
  contains (str_exn e) (error_msg p e) = true
  /\ contains (troubleshooting p) (error_msg p e) = true.
Proof.
  unfold error_msg. split.
  - apply contains_app_l, contains_app_r, contains_app_r, contains_app_r, contains_refl.
  - apply contains_app_r, contains_refl.
Qed.

(** C6. [invoke_model] calls the chain at most once and either returns the
    text of the provider's reply (its [content], the string itself, or its
    [str]) or raises an [Exception] whose message holds the text of the
    failure it caught, from building the chain or from calling it, between
    [Error with <provider>: ] and the troubleshooting lines of the provider:
    they name Ollama for auto, OpenAI for gpt, Anthropic for claude, and no
    other of the three. *)
Theorem invoke_model_reply_or_error (prompt : string) (p : ModelProvider)
    (m : pyval) (w : world) :
  let '(r, w') := invoke_model prompt p m w in
  (exists new, calls w' = (calls w ++ new)%list /\ (invocations new <= 1)%nat)
  /\ ((exists chain w1 answer,
         get_chain p m w = (Ok chain, w1)
         /\ chain_invoke (calls w1) chain prompt = Ok answer
         /\ calls w' = (calls w1 ++ [Invoke chain prompt])%list
         /\ r = Ok (match answer with
                    | WithContent content => content
                    | Plain text => text
                    | Other str => str
                    end))
      \/ (exists e,
            (fst (get_chain p m w) = Raise e
             \/ exists chain w1, get_chain p m w = (Ok chain, w1)
                                 /\ chain_invoke (calls w1) chain prompt = Raise e)
            /\ r = Raise (Exception (error_msg p e))
            /\ error_msg p e
               = match p with
                 | AUTO =>
                     ("Error with auto: " +:+ str_exn e)
                     +:+ NL +:+ NL +:+ "Troubleshooting:" +:+ NL
                     +:+ "- Make sure Ollama is running (ollama serve)" +:+ NL
                     +:+ "- Check if model is available (ollama list)"
                 | GPT =>
                     ("Error with gpt: " +:+ str_exn e)
                     +:+ NL +:+ NL +:+ "Troubleshooting:" +:+ NL
                     +:+ "- Check OpenAI API key" +:+ NL
                     +:+ "- Verify internet connection" +:+ NL
                     +:+ "- Check API quotas"
                 | CLAUDE =>
                     ("Error with claude: " +:+ str_exn e)
                     +:+ NL +:+ NL +:+ "Troubleshooting:" +:+ NL
                     +:+ "- Check Anthropic API key" +:+ NL
                     +:+ "- Verify internet connection" +:+ NL
                     +:+ "- Check API quotas"
                 end
            /\ contains (str_exn e) (error_msg p e) = true
            /\ contains (troubleshooting p) (error_msg p e) = true))
  /\ (forall q, contains (product q) (troubleshooting p) = bool_decide (p = q))
  /\ (forall msg,
        str_exn (ValueError msg) = msg /\ str_exn (TypeError msg) = msg
        /\ str_exn (AttributeError msg) = msg /\ str_exn (EOFError msg) = msg
        /\ str_exn (Exception msg) = msg /\ str_exn (KeyError msg) = repr_str msg).
Proof.
  rewrite invoke_model_spec.
  assert (Htr : exists new, calls (snd (get_chain p m w)) = (calls w ++ new)%list
                            /\ invocations new = 0%nat).
  { destruct (get_chain_cases p m w)
      as [(c' & _ & ->) | (Hkey & [(c' & _ & ->) | (e & _ & ->)])]; simpl.
    - exists []. by rewrite app_nil_r.
    - by eexists.
    - exists []. by rewrite app_nil_r. }
  assert (Hmsg : forall e,
            error_msg p e
            = match p with
              | AUTO =>
                  ("Error with auto: " +:+ str_exn e)
                  +:+ NL +:+ NL +:+ "Troubleshooting:" +:+ NL
                  +:+ "- Make sure Ollama is running (ollama serve)" +:+ NL
                  +:+ "- Check if model is available (ollama list)"
              | GPT =>
                  ("Error with gpt: " +:+ str_exn e)
                  +:+ NL +:+ NL +:+ "Troubleshooting:" +:+ NL
                  +:+ "- Check OpenAI API key" +:+ NL
                  +:+ "- Verify internet connection" +:+ NL
                  +:+ "- Check API quotas"
              | CLAUDE =>
                  ("Error with claude: " +:+ str_exn e)
                  +:+ NL +:+ NL +:+ "Troubleshooting:" +:+ NL
                  +:+ "- Check Anthropic API key" +:+ NL
                  +:+ "- Verify internet connection" +:+ NL
                  +:+ "- Check API quotas"
              end) by (intros e; by destruct p).
  destruct Htr as (new & Hnew & Hinv).
  destruct (get_chain p m w) as [[chain|e] w1] eqn:Hget; simpl in Hnew.
  - destruct (chain_invoke (calls w1) chain prompt) as [answer|e] eqn:Hcall;
      (split; [| split; [| split; [apply troubleshooting_names_product | done]]]).
    + exists (new ++ [Invoke chain prompt])%list. simpl.
      rewrite Hnew, <- app_assoc, invocations_app, Hinv. by split.
    + left. exists chain, w1, answer. repeat (split; [done |]). by destruct answer.
    + exists (new ++ [Invoke chain prompt])%list. simpl.
      rewrite Hnew, <- app_assoc, invocations_app, Hinv. by split.
    + right. exists e. split; [right; by exists chain, w1 |].
      split; [done |]. split; [apply Hmsg |]. apply error_msg_contains.
  - split; [| split; [| split; [apply troubleshooting_names_product | done]]].
    + exists new. split; [done | lia].
    + right. exists e. split; [by left |].
      split; [done |]. split; [apply Hmsg |]. apply error_msg_contains.
Qed.

End router.

(** ** The handler [chat] *)

Section handler.
Import ai backend.
Context `{Repr} `{Sdk}.
#[local] Arguments str_in : simpl never.

Lemma ModelProvider_of_value (s : string) (p : ModelProvider) :
  ModelProvider_of s = Ok p -> s = value p.
Proof.
  unfold ModelProvider_of.
  destruct (String.eqb_spec s "auto") as [-> |_]; [by intros [= <-] |].
  destruct (String.eqb_spec s "gpt") as [-> |_]; [by intros [= <-] |].
  destruct (String.eqb_spec s "claude") as [-> |_]; [by intros [= <-] |].
  discriminate.
Qed.

Lemma ModelProvider_of_valid (s : string) :
  str_in s valid_providers = true <-> exists p, ModelProvider_of s = Ok p.
Proof.
  unfold str_in, valid_providers, ModelProvider_of. simpl.
  destruct (String.eqb_spec s "auto"); [split; eauto |].
  destruct (String.eqb_spec s "gpt"); [split; eauto |].
  destruct (String.eqb_spec s "claude"); [split; eauto |].
  split; [discriminate | by intros [p ?]].
Qed.

Lemma lower_value (p : ModelProvider) : lower (value p) = value p.
Proof. by destruct p. Qed.

(** [invoke_model] raises nothing but a plain [Exception]. *)
Lemma invoke_model_raises (prompt : string) (p : ModelProvider) (m : pyval)
    (w w' : world) (e : exn) :
  invoke_model prompt p m w = (Raise e, w') -> exists msg, e = Exception msg.
Proof.
  rewrite invoke_model_spec.
  destruct (get_chain p m w) as [[chain|e0] w1].
  - destruct (chain_invoke _ _ _); [discriminate |]. intros [= <- _]. eauto.
  - intros [= <- _]. eauto.
Qed.

Lemma chat_not_json (request : Request) (w : world) :
  is_json request = false ->
  chat request w = (error_response "Request must be JSON" 400, w).
Proof. intros Hj. unfold chat, chat_try. by rewrite Hj. Qed.

(** On a JSON object the handler does what the interface describes. *)
Lemma chat_object (request : Request) (w : world) (d : gmap string pyval) :
  is_json request = true -> get_json request = PDict d ->
  chat request w = respond d w.
Proof.
  intros Hj Hd. unfold chat, chat_try, respond, validate. rewrite Hj, Hd. simpl.
  unfold bind, lift, prompt_missing, rbind. simpl.
  destruct (d !! "prompt") as [v|] eqn:Hp; simpl; [| reflexivity].
  destruct v; try reflexivity. simpl.
  destruct (str_truthy (strip s)) eqn:Hs; simpl; [| reflexivity].
  destruct (d !! "model") as [v|] eqn:Hm; simpl; [| reflexivity].
  destruct v as [| | |m| |]; try reflexivity. simpl.
  destruct (ModelProvider_of (lower m)) as [p|e] eqn:Hp'.
  - pose proof (ModelProvider_of_value _ _ Hp') as ->.
    assert (Hv : str_in (value p) valid_providers = true) by (by destruct p).
    rewrite Hv. simpl.
    assert (Hof : ModelProvider_of (value p) = Ok p) by (by destruct p).
    unfold get_ai_response, bind, lift. rewrite lower_value, Hof.
    destruct (invoke_model (strip s) p (default PNone (d !! "specific_model")) w)
      as [[answer|e] w'] eqn:Hi; [reflexivity |].
    apply invoke_model_raises in Hi as [msg ->]. reflexivity.
  - destruct (str_in (lower m) valid_providers) eqn:Hv; [| reflexivity].
    apply ModelProvider_of_valid in Hv as [p Hp'']. congruence.
Qed.

(** A request either leaves the world alone or changes it by one call of
    [invoke_model]. *)
Lemma chat_world (request : Request) (w : world) :
  snd (chat request w) = w
  \/ exists prompt p m, snd (chat request w) = snd (invoke_model prompt p m w).
Proof.
  destruct (is_json request) eqn:Hj; [| left; by rewrite chat_not_json].
  destruct (get_json request) as [| | |s|l|d] eqn:Hd.
  1-5: left; unfold chat, chat_try; rewrite Hj, Hd; simpl;
       unfold bind, lift, prompt_missing, rbind; simpl; try reflexivity.
  - by destruct (contains "prompt" s).
  - by destruct (existsb (eq_str "prompt") l).
  - rewrite (chat_object _ _ _ Hj Hd). unfold respond.
    destruct (validate d) as [prompt p|msg|e]; [| by left..].
    right. exists prompt, p, (default PNone (d !! "specific_model")).
    by destruct (invoke_model _ _ _ _) as [[answer|e] w'].
Qed.

Lemma cache_key_provider (p q : ModelProvider) (m n : pyval) :
  cache_key p m = cache_key q n -> p = q.
Proof.
  intros Heq. apply (f_equal (String.get 0)) in Heq.
  destruct p, q; try reflexivity; vm_compute in Heq; discriminate.
Qed.

Lemma get_chain_guarded (p : ModelProvider) (m : pyval) (w : world) :
  guarded w -> guarded (snd (get_chain p m w)).
Proof.
  intros Hw q n. rewrite get_chain_config. intros Hq.
  destruct (get_chain_cases p m w)
    as [(c' & _ & ->) | (Hkey & [(c' & Hc & ->) | (e & _ & ->)])]; simpl;
    [by apply Hw | | by apply Hw].
  rewrite lookup_insert_ne; [by apply Hw |].
  intros Heq. apply cache_key_provider in Heq as ->.
  unfold creation in Hc. rewrite Hq in Hc. discriminate.
Qed.

Lemma invoke_model_service (prompt : string) (p : ModelProvider) (m : pyval)
    (w : world) :
  ai_service (snd (invoke_model prompt p m w)) = ai_service (snd (get_chain p m w)).
Proof.
  rewrite invoke_model_spec.
  destruct (get_chain p m w) as [[chain|e] w1]; [| reflexivity].
  by destruct (chain_invoke _ _ _).
Qed.

Lemma invoke_model_guarded (prompt : string) (p : ModelProvider) (m : pyval)
    (w : world) :
  guarded w -> guarded (snd (invoke_model prompt p m w)).
Proof.
  intros Hw q n. rewrite invoke_model_service. by apply get_chain_guarded.
Qed.

Lemma invoke_model_config (prompt : string) (p : ModelProvider) (m : pyval)
    (w : world) :
  config (ai_service (snd (invoke_model prompt p m w))) = config (ai_service w).
Proof. by rewrite invoke_model_service, get_chain_config. Qed.

(** The configuration is the one read at import, and the cache stays
    guarded, whatever requests were served. *)
Lemma served_invariant (env : gmap string string) (w : world) :
  served env w -> config (ai_service w) = _setup_config env /\ guarded w.
Proof.
  induction 1 as [|request w Hw [IHc IHg]|prompt p m w Hw [IHc IHg]].
  - split; [reflexivity |]. intros p m _. apply lookup_empty.
  - destruct (chat_world request w) as [-> | (prompt & p & m & ->)]; [done |].
    split; [by rewrite invoke_model_config | by apply invoke_model_guarded].
  - split; [by rewrite invoke_model_config | by apply invoke_model_guarded].
Qed.

End handler.

(** ** The empty model name *)

Section empty_model_name.
Import ai backend.
Context `{Repr} `{Sdk}.

Lemma built_model (cfg : Config) (p : ModelProvider) (m : pyval) :
  model_of (llm_of (built cfg p m)) = py_or m (PStr (default_model cfg p)).
Proof. by destruct p. Qed.

Lemma py_or_empty (m : pyval) (d : string) : py_or m (PStr d) = PStr "" -> d = "".
Proof.
  unfold py_or. destruct (truthy m) eqn:Hm.
  - intros ->. discriminate.
  - by intros [= ->].
Qed.

Lemma creation_built (cfg : Config) (p : ModelProvider) (m : pyval)
    (c : RunnableSequence) :
  creation cfg p m = Ok c -> c = built cfg p m.
Proof.
  unfold creation. destruct (key_configured cfg p); [| discriminate].
  destruct (client_error _); [discriminate |]. by intros [= <-].
Qed.

Lemma setup_defaults (env : gmap string string) :
  openai_model (_setup_config env) <> ""
  /\ anthropic_model (_setup_config env) <> ""
  /\ (ollama_model (_setup_config env) = ""
      <-> env !! "OLLAMA_DEFAULT_MODEL" = Some "").
Proof.
  split; [discriminate |]. split; [discriminate |].
  unfold _setup_config, getenv. simpl.
  destruct (env !! "OLLAMA_DEFAULT_MODEL") as [s|]; simpl.
  - split; [by intros -> | by intros [= ->]].
  - split; discriminate.
Qed.

Lemma get_chain_assembled (p : ModelProvider) (m : pyval) (w : world) :
  assembled w -> assembled (snd (get_chain p m w)).
Proof.
  intros Hw k c. rewrite get_chain_config.
  destruct (get_chain_cases p m w)
    as [(c' & _ & ->) | (_ & [(c' & Hc & ->) | (e & _ & ->)])]; simpl;
    [apply Hw | | apply Hw].
  destruct (decide (k = cache_key p m)) as [-> | Hk].
  - rewrite lookup_insert_eq. intros [= <-]. exists p, m.
    split; [reflexivity | by apply creation_built].
  - rewrite lookup_insert_ne by congruence. apply Hw.
Qed.

Lemma invoke_model_assembled (prompt : string) (p : ModelProvider) (m : pyval)
    (w : world) :
  assembled w -> assembled (snd (invoke_model prompt p m w)).
Proof.
  intros Hw k c. rewrite invoke_model_service. by apply get_chain_assembled.
Qed.

Lemma served_assembled (env : gmap string string) (w : world) :
  served env w -> assembled w.
Proof.
  induction 1 as [|request w Hw IH|prompt p m w Hw IH].
  - intros k c. simpl. by rewrite lookup_empty.
  - destruct (chat_world request w) as [-> | (prompt & p & m & ->)]; [done |].
    by apply invoke_model_assembled.
  - by apply invoke_model_assembled.
Qed.

(** C10, amended. For every provider the empty string as model name does
    what no model name does: both give the cache key [<provider>_default],
    and [get_chain], each [create_*_chain] and [invoke_model] return the
    same result and the same world for both. A chain built for it carries
    the configured default model, which is not the empty string for gpt and
    claude and is the empty string for auto exactly when
    OLLAMA_DEFAULT_MODEL is set to the empty string. In a backend that has
    served any requests, the chain [get_chain] returns for it, new or from
    the cache, is one assembled from the configuration for a model name
    with that cache key, and its model is named by the empty string only
    for auto with OLLAMA_DEFAULT_MODEL set to the empty string. *)
Theorem empty_model_name_is_default (p : ModelProvider) (w : world) :
  cache_key p (PStr "") = value p +:+ "_default"
  /\ cache_key p PNone = value p +:+ "_default"
  /\ get_chain p (PStr "") w = get_chain p PNone w
  /\ create_ollama_chain (PStr "") w = create_ollama_chain PNone w
  /\ create_openai_chain (PStr "") w = create_openai_chain PNone w
  /\ create_anthropic_chain (PStr "") w = create_anthropic_chain PNone w
  /\ (forall prompt, invoke_model prompt p (PStr "") w = invoke_model prompt p PNone w)
  /\ (forall c w', create_chain p (PStr "") w = (Ok c, w') ->
                   model_of (llm_of c) = PStr (default_model (config (ai_service w)) p))
  /\ (forall env, openai_model (_setup_config env) <> ""
                  /\ anthropic_model (_setup_config env) <> ""
                  /\ (ollama_model (_setup_config env) = ""
                      <-> env !! "OLLAMA_DEFAULT_MODEL" = Some ""))
  /\ (forall env c w',
        served env w ->
        get_chain p (PStr "") w = (Ok c, w') ->
        (exists m,
           cache_key p m = value p +:+ "_default"
           /\ c = built (_setup_config env) p m
           /\ model_of (llm_of c)
              = if truthy m then m else PStr (default_model (_setup_config env) p))
        /\ (model_of (llm_of c) = PStr "" ->
            p = AUTO /\ env !! "OLLAMA_DEFAULT_MODEL" = Some "")).
Proof.
  assert (Hkey : cache_key p (PStr "") = value p +:+ "_default") by (by destruct p).
  split; [exact Hkey |]. split; [by destruct p |].
  split; [apply get_chain_empty |].
  split; [apply (create_chain_empty AUTO) |].
  split; [apply (create_chain_empty GPT) |].
  split; [apply (create_chain_empty CLAUDE) |].
  split; [intros prompt; by rewrite !invoke_model_spec, get_chain_empty |].
  split; [| split; [apply setup_defaults |]].
  - intros c w'. rewrite create_chain_spec. unfold creation.
    destruct (key_configured _ p); [| discriminate].
    destruct (client_error _); [discriminate |].
    intros [= <- _]. by destruct p.
  - intros env c w' Hw Hget.
    destruct (served_invariant env w Hw) as [Hcfg _].
    assert (Hc : exists q m, cache_key p (PStr "") = cache_key q m
                             /\ c = built (_setup_config env) q m).
    { pose proof (get_chain_assembled p (PStr "") w (served_assembled env w Hw))
        as Hafter.
      pose proof (get_chain_config p (PStr "") w) as Hsame.
      rewrite Hget in Hafter, Hsame. simpl in Hafter, Hsame.
      assert (Hin : chains (ai_service w') !! cache_key p (PStr "") = Some c).
      { destruct (get_chain_cases p (PStr "") w)
          as [(c' & Hhit & Heq) | (_ & [(c' & _ & Heq) | (e & _ & Heq)])];
          rewrite Hget in Heq.
        - by injection Heq as -> ->.
        - injection Heq as -> ->. simpl. by rewrite lookup_insert_eq.
        - discriminate. }
      destruct (Hafter _ _ Hin) as (q & m & Hk & ->).
      exists q, m. split; [exact Hk | by rewrite Hsame, Hcfg]. }
    destruct Hc as (q & m & Hk & ->).
    pose proof (cache_key_provider _ _ _ _ Hk) as <-.
    rewrite built_model. split.
    + exists m. split; [by rewrite <- Hk |]. split; reflexivity.
    + intros Hempty. apply py_or_empty in Hempty.
      destruct (setup_defaults env) as (Hgpt & Hclaude & Hollama).
      destruct p; simpl in Hempty; [| done..].
      split; [reflexivity | by apply Hollama].
Qed.

End empty_model_name.

(** ** Claims about [POST /api/chat] *)

Section chat_claims.
Import ai backend.
Context `{Repr} `{Sdk}.

Lemma keys_error (msg : string) (status : Z) :
  keys (error_response msg status) = list_to_set ["error"; "status"].
Proof. unfold keys, error_response, jsonify, dict. simpl. set_solver. Qed.

Lemma keys_success (a b c d : pyval) (status : Z) :
  keys (jsonify (dict [("response", a); ("model_used", b);
                       ("specific_model", c); ("status", d)]) status)
  = list_to_set ["response"; "model_used"; "specific_model"; "status"].
Proof. unfold keys, jsonify, dict. simpl. set_solver. Qed.

Lemma strip_truthy (s : string) : str_truthy (strip s) = true <-> strip s <> "".
Proof. destruct (strip s); simpl; split; congruence. Qed.

Lemma validate_accepts (d : gmap string pyval) s m p :
  d !! "prompt" = Some (PStr s) -> strip s <> "" ->
  d !! "model" = Some (PStr m) -> lower m = value p ->
  validate d = Accepted (strip s) p.
Proof.
  intros Hp Hs Hm Hl. unfold validate. rewrite Hp, Hm, Hl.
  apply strip_truthy in Hs as ->. by destruct p.
Qed.

Lemma validate_rejects (d : gmap string pyval) :
  d !! "prompt" = None
  \/ (exists s, d !! "prompt" = Some (PStr s)
                /\ (strip s = ""
                    \/ d !! "model" = None
                    \/ exists m, d !! "model" = Some (PStr m)
                                 /\ lower m ∉ valid_providers)) ->
  exists msg, validate d = Rejected msg /\ msg <> "".
Proof.
  unfold validate.
  intros [-> | (s & -> & Hcase)]; [by eexists |].
  destruct (str_truthy (strip s)) eqn:Hs; simpl; [| by eexists].
  destruct Hcase as [Hblank | [-> | (m & -> & Hm)]]; [| by eexists |].
  - apply strip_truthy in Hs. contradiction.
  - destruct (ModelProvider_of (lower m)) as [p|e] eqn:Hp; [| by eexists].
    exfalso. apply Hm, str_in_spec, ModelProvider_of_valid. eauto.
Qed.

Lemma validate_ill_typed (d : gmap string pyval) :
  (exists v, d !! "prompt" = Some v /\ is_str v = false)
  \/ (exists s v, d !! "prompt" = Some (PStr s) /\ strip s <> ""
                  /\ d !! "model" = Some v /\ is_str v = false) ->
  exists v attr,
    is_str v = false
    /\ validate d
       = IllTyped (AttributeError ("'" +:+ type_name v
                                   +:+ "' object has no attribute '" +:+ attr +:+ "'")).
Proof.
  unfold validate.
  intros [(v & -> & Hv) | (s & v & -> & Hs & -> & Hv)].
  - exists v, "strip". by destruct v.
  - apply strip_truthy in Hs as ->. exists v, "lower". by destruct v.
Qed.

(** C1, amended. For a request whose body is a JSON object: when the prompt
    is a string that is not empty once stripped and the model is a string
    whose lower-case form is auto, gpt or claude, the endpoint answers 200
    with exactly the keys response, model_used, specific_model and status if
    the provider call succeeds, and 500 with exactly the keys error and
    status if it fails; when the prompt is missing or blank, or the model
    is missing or a string outside the set, or the request is not JSON at
    all, it answers 400 with error and status; when the prompt, or past a
    good prompt the model, is present and not a string, it answers 500 with
    error and status. *)
Theorem chat_status_by_case (request : Request) (w : world)
    (d : gmap string pyval) :
  get_json request = PDict d ->
  (is_json request = false ->
     status_code (fst (chat request w)) = 400
     /\ keys (fst (chat request w)) = list_to_set ["error"; "status"])
  /\ (is_json request = true ->
      (forall s m p,
         d !! "prompt" = Some (PStr s) -> strip s <> "" ->
         d !! "model" = Some (PStr m) -> lower m = value p ->
         let specific_model := default PNone (d !! "specific_model") in
         match invoke_model (strip s) p specific_model w with
         | (Ok answer, w') =>
             chat request w
             = (jsonify (dict [("response", PStr answer);
                               ("model_used", PStr (lower m));
                               ("specific_model", specific_model);
                               ("status", PStr "success")]) 200, w')
             /\ keys (fst (chat request w))
                = list_to_set ["response"; "model_used"; "specific_model"; "status"]
         | (Raise e, w') =>
             status_code (fst (chat request w)) = 500
             /\ keys (fst (chat request w)) = list_to_set ["error"; "status"]
         end)
      /\ (d !! "prompt" = None
          \/ (exists s, d !! "prompt" = Some (PStr s)
                        /\ (strip s = ""
                            \/ d !! "model" = None
                            \/ exists m, d !! "model" = Some (PStr m)
                                         /\ lower m ∉ valid_providers)) ->
          status_code (fst (chat request w)) = 400
          /\ keys (fst (chat request w)) = list_to_set ["error"; "status"])
      /\ ((exists v, d !! "prompt" = Some v /\ is_str v = false)
          \/ (exists s v, d !! "prompt" = Some (PStr s) /\ strip s <> ""
                          /\ d !! "model" = Some v /\ is_str v = false) ->
          status_code (fst (chat request w)) = 500
          /\ keys (fst (chat request w)) = list_to_set ["error"; "status"])).
Proof.
  intros Hd. split.
  { intros Hj. rewrite (chat_not_json _ _ Hj). split; [done | apply keys_error]. }
  intros Hj. rewrite (chat_object _ _ _ Hj Hd). unfold respond.
  split; [| split].
  - intros s m p Hp Hs Hm Hl. cbv zeta.
    rewrite (validate_accepts _ _ _ _ Hp Hs Hm Hl).
    destruct (invoke_model (strip s) p _ w) as [[answer|e] w'].
    + rewrite Hl. split; [done | apply keys_success].
    + split; [done | apply keys_error].
  - intros Hcase. apply validate_rejects in Hcase as (msg & -> & _).
    split; [done | apply keys_error].
  - intros Hcase. apply validate_ill_typed in Hcase as (v & attr & _ & ->).
    split; [done | apply keys_error].
Qed.

(** C3, amended. A request whose JSON body is an object that has no
    prompt, or has a prompt that is an empty or whitespace-only string, is
    answered 400 with a non-empty error message. *)
Theorem chat_requires_prompt (request : Request) (w : world)
    (d : gmap string pyval) :
  get_json request = PDict d ->
  d !! "prompt" = None
  \/ (exists s, d !! "prompt" = Some (PStr s) /\ whitespace_only s = true) ->
  status_code (fst (chat request w)) = 400
  /\ exists msg, json (fst (chat request w)) !! "error" = Some (PStr msg)
                 /\ msg <> "".
Proof.
  intros Hd Hprompt.
  destruct (is_json request) eqn:Hj.
  - rewrite (chat_object _ _ _ Hj Hd). unfold respond.
    destruct (validate_rejects d) as (msg & -> & Hmsg).
    { destruct Hprompt as [? | (s & Hs & Hblank)]; [by left | right].
      exists s. split; [done | left]. by apply strip_blank. }
    split; [done |]. by exists msg.
  - rewrite (chat_not_json _ _ Hj). split; [done |]. by eexists.
Qed.

(** C4, amended. A request whose JSON object has no prompt or a string
    prompt, and a model that is a string whose lower-case form is none of
    auto, gpt and claude, is answered 400. *)
Theorem chat_rejects_unknown_model (request : Request) (w : world)
    (d : gmap string pyval) (m : string) :
  get_json request = PDict d ->
  d !! "prompt" = None \/ (exists s, d !! "prompt" = Some (PStr s)) ->
  d !! "model" = Some (PStr m) ->
  lower m ∉ valid_providers ->
  status_code (fst (chat request w)) = 400.
Proof.
  intros Hd Hprompt Hm Hl.
  destruct (is_json request) eqn:Hj; [| by rewrite (chat_not_json _ _ Hj)].
  rewrite (chat_object _ _ _ Hj Hd). unfold respond.
  destruct (validate_rejects d) as (msg & -> & _); [| done].
  destruct Hprompt as [? | (s & Hs)]; [by left | right].
  exists s. split; [done |]. right. right. by exists m.
Qed.

(** C9, amended. A request whose JSON object has a prompt that is not a
    string, or a prompt that is a string, not blank, together with a model
    that is not a string, is answered 500: [.strip()] or [.lower()] raises
    [AttributeError], which only the generic handler catches. The world is
    left as it was. *)
Theorem chat_500_on_wrong_type (request : Request) (w : world)
    (d : gmap string pyval) :
  is_json request = true -> get_json request = PDict d ->
  (exists v, d !! "prompt" = Some v /\ is_str v = false)
  \/ (exists s v, d !! "prompt" = Some (PStr s) /\ strip s <> ""
                  /\ d !! "model" = Some v /\ is_str v = false) ->
  exists v attr,
    is_str v = false
    /\ chat request w
       = (error_response ("Failed to process chat request: '" +:+ type_name v
                          +:+ "' object has no attribute '" +:+ attr +:+ "'") 500,
          w).
Proof.
  intros Hj Hd Hcase. rewrite (chat_object _ _ _ Hj Hd). unfold respond.
  apply validate_ill_typed in Hcase as (v & attr & Hv & ->).
  by exists v, attr.
Qed.

(** C5, amended. Whatever was served before, a request with a string
    prompt that is not blank and a model whose lower-case form is gpt
    (claude) is answered, when OPENAI_API_KEY (ANTHROPIC_API_KEY) is unset
    or empty, with status 500 and an error message that names the
    variable; the world is left as it was. *)
Theorem chat_reports_missing_key (env : gmap string string) (request : Request)
    (w : world) (d : gmap string pyval) (s m : string) (p : ModelProvider)
    (var : string) :
  served env w ->
  is_json request = true -> get_json request = PDict d ->
  d !! "prompt" = Some (PStr s) -> strip s <> "" ->
  d !! "model" = Some (PStr m) -> lower m = value p ->
  key_variable p = Some var -> opt_truthy (env !! var) = false ->
  exists msg,
    chat request w = (error_response msg 500, w)
    /\ contains var msg = true.
Proof.
  intros Hw Hj Hd Hp Hs Hm Hl Hvar Hunset.
  apply served_invariant in Hw as [Hcfg Hguard].
  assert (Hkey : key_configured (config (ai_service w)) p = false).
  { rewrite Hcfg. destruct p; simpl in *; [discriminate | |];
      injection Hvar as <-; exact Hunset. }
  rewrite (chat_object _ _ _ Hj Hd). unfold respond.
  rewrite (validate_accepts _ _ _ _ Hp Hs Hm Hl).
  rewrite invoke_model_spec, get_chain_miss by (by apply Hguard).
  unfold creation. rewrite Hkey.
  eexists. split; [reflexivity |].
  destruct p; simpl in Hvar; [discriminate | |]; injection Hvar as <-; reflexivity.
Qed.

End chat_claims.

(** ** The claims at concrete requests *)

Section requests.
Import ai backend.
#[local] Existing Instance sample.repr.
#[local] Existing Instance sample.echo.

Lemma get_chain_builds_once_witness :
  let w1 := snd (get_chain AUTO PNone (init ∅)) in
  let between := [(GPT, PNone); (AUTO, PStr "llama3")] in
  exists c,
    get_chain AUTO PNone (get_chains between w1) = (Ok c, get_chains between w1).
Proof.
  eexists.
  apply (get_chain_builds_once AUTO PNone (init ∅)).
  reflexivity.
Defined.

Lemma empty_model_name_is_default_witness :
  let w := init {["OPENAI_API_KEY" := "sk-test"]} in
  model_of (llm_of (built (config (ai_service w)) GPT (PStr "")))
  = PStr "gpt-3.5-turbo".
Proof.
  intros w.
  pose proof (empty_model_name_is_default GPT w)
    as (_ & _ & _ & _ & _ & _ & _ & Hmodel & _).
  exact (Hmodel _ _ eq_refl).
Defined.

(** C10 as stated fails where OLLAMA_DEFAULT_MODEL is set to the empty
    string: the chain built for the empty model name then has the model
    named by the empty string. *)
Lemma empty_model_name_counterexample :
  let env : gmap string string := {["OLLAMA_DEFAULT_MODEL" := ""]} in
  exists c w',
    get_chain AUTO (PStr "") (init env) = (Ok c, w')
    /\ model_of (llm_of c) = PStr "".
Proof. do 2 eexists. split; reflexivity. Qed.

(** Once a request has named the model [default], the empty model name
    finds that chain in the cache: what it selects then is the model named
    [default], not the configured one, and not one named by the empty
    string. *)
Example empty_model_name_cached :
  let request := sample.post [("prompt", PStr "hi"); ("model", PStr "auto");
                              ("specific_model", PStr "default")] in
  let w := snd (chat request (init ∅)) in
  exists c, get_chain AUTO (PStr "") w = (Ok c, w)
            /\ model_of (llm_of c) = PStr "default"
            /\ default_model (config (ai_service w)) AUTO = "qwen3:8b".
Proof. eexists. repeat split. Qed.

(** With a provider that cannot be reached the caller gets the failure
    text and the Ollama lines, after one call of the chain. *)
Example invoke_model_offline :
  let '(r, w) := invoke_model (H0 := sample.offline) "hi" AUTO PNone (init ∅) in
  r = Raise (Exception
               ("Error with auto: Connection refused" +:+ NL +:+ NL
                +:+ "Troubleshooting:" +:+ NL
                +:+ "- Make sure Ollama is running (ollama serve)" +:+ NL
                +:+ "- Check if model is available (ollama list)"))
  /\ invocations (calls w) = 1%nat.
Proof. split; reflexivity. Qed.

Lemma chat_status_by_case_witness :
  let request := sample.post [("prompt", PStr " hi "); ("model", PStr "Auto")] in
  let w := init ∅ in
  status_code (fst (chat request w)) = 200
  /\ keys (fst (chat request w))
     = list_to_set ["response"; "model_used"; "specific_model"; "status"].
Proof.
  intros request w.
  destruct (chat_status_by_case
              request w _ eq_refl) as [_ Hjson].
  destruct (Hjson eq_refl) as [Hok _].
  specialize (Hok " hi " "Auto" AUTO eq_refl ltac:(discriminate) eq_refl eq_refl).
  destruct Hok as [Hchat Hkeys].
  split; [by rewrite Hchat | exact Hkeys].
Defined.

(** C1 as stated fails three ways. A prompt that is a number fails
    validation and is answered 500, not 400. A prompt of blanks is a
    non-empty string next to a model in the set, the provider would answer,
    and the request is turned down with 400. The model GPT is not in the
    set and the request is served with 200. *)
Lemma chat_status_counterexample :
  (let fields := [("prompt", PInt 5); ("model", PStr "auto")] in
   stated_valid (dict fields) = false
   /\ status_code (fst (chat (sample.post fields) (init ∅))) = 500)
  /\ (let fields := [("prompt", PStr "   "); ("model", PStr "auto")] in
      stated_valid (dict fields) = true
      /\ status_code (fst (chat (sample.post fields) (init ∅))) = 400)
  /\ (let fields := [("prompt", PStr "hi"); ("model", PStr "GPT")] in
      stated_valid (dict fields) = false
      /\ status_code
           (fst (chat (sample.post fields)
                   (init {["OPENAI_API_KEY" := "sk-test"]}))) = 200).
Proof. repeat split. Qed.

Lemma chat_requires_prompt_witness :
  let request := sample.post [("prompt", PStr "   "); ("model", PStr "auto")] in
  status_code
    (fst (chat request (init ∅))) = 400
  /\ exists msg,
       json
         (fst (chat request (init ∅)))
       !! "error" = Some (PStr msg)
       /\ msg <> "".
Proof.
  intros request.
  apply (chat_requires_prompt request
           (init ∅) _ eq_refl).
  right. exists "   ". split; reflexivity.
Defined.

(** C3 as stated fails for a JSON body that is no object. The bodies
    [null] and [5] lack the prompt key and are answered 500: [in] raises
    TypeError on them. The body ["my prompt"], a string, has no keys
    either; [in] finds the word in it, the subscript raises TypeError, and
    the answer is 500 too. *)
Lemma chat_requires_prompt_counterexample :
  (let request := {| is_json := true; get_json := PNone |} in
   has_key "prompt" (get_json request) = false
   /\ status_code (fst (chat request (init ∅))) = 500)
  /\ (let request := {| is_json := true; get_json := PInt 5 |} in
      has_key "prompt" (get_json request) = false
      /\ status_code (fst (chat request (init ∅))) = 500)
  /\ (let request := {| is_json := true; get_json := PStr "my prompt" |} in
      has_key "prompt" (get_json request) = false
      /\ status_code (fst (chat request (init ∅))) = 500).
Proof. repeat split. Qed.

Lemma chat_rejects_unknown_model_witness :
  let request := sample.post [("prompt", PStr "hi"); ("model", PStr "GPT-4")] in
  status_code
    (fst (chat request (init ∅))) = 400.
Proof.
  intros request.
  apply (chat_rejects_unknown_model request
           (init ∅) _ "GPT-4" eq_refl).
  - right. by exists "hi".
  - reflexivity.
  - intros Hin. apply str_in_spec in Hin. discriminate Hin.
Defined.

(** C4 as stated fails twice: GPT is a string outside the set and is
    served, since the handler compares the lower-case form; and a model
    outside the set next to a prompt that is a number is answered 500. *)
Lemma chat_rejects_unknown_model_counterexample :
  ("GPT" ∉ valid_providers)
  /\ status_code
       (fst (chat
               (sample.post [("prompt", PStr "hi"); ("model", PStr "GPT")])
               (init {["OPENAI_API_KEY" := "sk-test"]}))) = 200
  /\ ("mistral" ∉ valid_providers)
  /\ status_code
       (fst (chat
               (sample.post [("prompt", PInt 5); ("model", PStr "mistral")])
               (init ∅))) = 500.
Proof.
  split; [intros Hin; apply str_in_spec in Hin; discriminate Hin |].
  split; [reflexivity |].
  split; [intros Hin; apply str_in_spec in Hin; discriminate Hin |].
  reflexivity.
Qed.

Lemma chat_reports_missing_key_witness :
  let request := sample.post [("prompt", PStr "hi"); ("model", PStr "gpt")] in
  exists msg,
    chat request (init ∅)
    = (error_response msg 500, init ∅)
    /\ contains "OPENAI_API_KEY" msg = true.
Proof.
  intros request.
  apply (chat_reports_missing_key ∅ request (init ∅)
           (dict [("prompt", PStr "hi"); ("model", PStr "gpt")])
           "hi" "gpt" GPT "OPENAI_API_KEY").
  - apply served_init.
  - reflexivity.
  - reflexivity.
  - reflexivity.
  - discriminate.
  - reflexivity.
  - reflexivity.
  - reflexivity.
  - reflexivity.
Defined.

(** C5 as stated fails on a blank prompt: with no key configured the
    request for gpt is turned down for its prompt, and the message says
    nothing of a key. *)
Lemma chat_reports_missing_key_counterexample :
  let request := sample.post [("prompt", PStr "   "); ("model", PStr "gpt")] in
  let msg := "Prompt is required and cannot be empty" in
  chat request (init ∅)
  = (error_response msg 400, init ∅)
  /\ contains "OPENAI_API_KEY" msg = false
  /\ contains "key" (lower msg) = false.
Proof. repeat split. Qed.

Lemma chat_500_on_wrong_type_witness :
  let request := sample.post [("prompt", PStr "hi"); ("model", PNone)] in
  exists v attr,
    is_str v = false
    /\ chat request (init ∅)
       = (error_response
            ("Failed to process chat request: '" +:+ type_name v
             +:+ "' object has no attribute '" +:+ attr +:+ "'") 500,
          init ∅).
Proof.
  intros request.
  apply (chat_500_on_wrong_type request
           (init ∅) _ eq_refl eq_refl).
  right. exists "hi", PNone. repeat split. discriminate.
Defined.

(** C9 as stated fails where the prompt is blank: the model is a number,
    and the answer is 400, given before the model is looked at. *)
Lemma chat_500_on_wrong_type_counterexample :
  is_str (PInt 5) = false
  /\ status_code
       (fst (chat
               (sample.post [("prompt", PStr ""); ("model", PInt 5)])
               (init ∅))) = 400.
Proof. split; reflexivity. Qed.

End requests.

(** ** [GET /api/models] *)

Section models.
Import ai backend.

(** C2, amended. The listing always answers 200 with exactly three entries,
    auto, gpt and claude in this order. The gpt and claude entries carry an
    [available] flag, true exactly when OPENAI_API_KEY, respectively
    ANTHROPIC_API_KEY, is set to a non-empty string; the auto entry carries
    no such flag. *)
Theorem models_listing (env : gmap string string) :
  status_code (get_available_models env) = 200
  /\ exists a g c,
       json (get_available_models env) !! "models"
       = Some (PList [PDict a; PDict g; PDict c])
       /\ model_entries (get_available_models env) = [a; g; c]
       /\ a !! "id" = Some (PStr "auto")
       /\ g !! "id" = Some (PStr "gpt")
       /\ c !! "id" = Some (PStr "claude")
       /\ a !! "available" = None
       /\ (exists b, g !! "available" = Some (PBool b)
                     /\ (b = true <-> exists v, env !! "OPENAI_API_KEY" = Some v
                                                /\ v <> ""))
       /\ (exists b, c !! "available" = Some (PBool b)
                     /\ (b = true <-> exists v, env !! "ANTHROPIC_API_KEY" = Some v
                                                /\ v <> "")).
Proof.
  split; [reflexivity |].
  do 3 eexists.
  split; [reflexivity |]. split; [reflexivity |].
  split; [reflexivity |]. split; [reflexivity |]. split; [reflexivity |].
  split; [reflexivity |].
  split; (eexists; split; [reflexivity | apply opt_truthy_true]).
Qed.

(** C2 as stated fails where OPENAI_API_KEY is set to the empty string:
    the variable is set and the gpt entry says unavailable; and the auto
    entry has no flag at all. *)
Lemma models_listing_counterexample :
  let env : gmap string string := {["OPENAI_API_KEY" := ""]} in
  exists a g c,
    model_entries (get_available_models env) = [a; g; c]
    /\ is_Some (env !! "OPENAI_API_KEY")
    /\ g !! "available" = Some (PBool false)
    /\ ~ stated_available env "OPENAI_API_KEY" g
    /\ a !! "available" = None.
Proof.
  do 3 eexists.
  split; [reflexivity |].
  split; [by eexists |].
  split; [reflexivity |].
  split; [| reflexivity].
  unfold stated_available. vm_compute. discriminate.
Qed.

End models.

(** ** The history of the agent loop *)

Section agent_loop.
Import taiga.
Context `{Repr}.
#[local] Open Scope list_scope.
#[local] Arguments str_in : simpl never.
#[local] Arguments strip : simpl never.
#[local] Arguments lower : simpl never.










End agent_loop.

Section terminal.
Import taiga.
#[local] Existing Instance sample.repr.

(** The sample session ends at its fourth pass with two turns recorded. *)
Example interactive_mode_session :
  interactive_mode sample.session 10
  = ([HumanMessage (PStr "show me all projects");
      AIMessage (PStr "2 projects");
      HumanMessage (PStr "delete everything");
      AIMessage (PStr "Got error: tool call refused")],
     true).
Proof. reflexivity. Qed.


End terminal.

(** * Further properties *)

(** ** The cache keys and what sits under them *)

Section cache_keys.
Import ai.
Context `{Repr} `{Sdk}.

Lemma cache_key_name (p : ModelProvider) (name : option string) :
  cache_key p (of_optional name) = value p +:+ "_" +:+ key_name name.
Proof. by destruct name as [[|c s]|]. Qed.

Lemma cache_key_inj (p q : ModelProvider) (a b : option string) :
  cache_key p (of_optional a) = cache_key q (of_optional b) ->
  p = q /\ key_name a = key_name b.
Proof.
  intros Heq. pose proof (cache_key_provider _ _ _ _ Heq) as <-.
  split; [reflexivity |].
  rewrite !cache_key_name in Heq.
  by apply (inj (String.app (value p))), (inj (String.app "_")) in Heq.
Qed.

(** X1. Two calls with a provider and a model name (a string or [None])
    use the same cache key if and only if the provider is the same and the
    names are the same once [None] and the empty string are read as
    [default]. *)
Theorem cache_key_injective (p q : ModelProvider) (a b : option string) :
  cache_key p (of_optional a) = cache_key q (of_optional b)
  <-> p = q /\ key_name a = key_name b.
Proof.
  split; [apply cache_key_inj |].
  intros [-> Hname]. by rewrite !cache_key_name, Hname.
Qed.

Lemma built_named (cfg : Config) (p : ModelProvider) (a b : option string) :
  key_name a = key_name b -> key_name b <> "default" ->
  built cfg p (of_optional a) = built cfg p (of_optional b).
Proof.
  destruct a as [[|c s]|], b as [[|c' s']|]; simpl; congruence.
Qed.

Lemma get_chain_sound (p : ModelProvider) (name : option string) (w : world) :
  sound w -> sound (snd (get_chain p (of_optional name) w)).
Proof.
  intros Hw k c. rewrite get_chain_config.
  destruct (get_chain_cases p (of_optional name) w)
    as [(c' & _ & ->) | (Hkey & [(c' & Hc & ->) | (e & _ & ->)])]; simpl;
    [apply Hw | | apply Hw].
  destruct (decide (k = cache_key p (of_optional name))) as [-> | Hne].
  - rewrite lookup_insert_eq. intros [= <-]. exists p, name. split; [done |].
    unfold creation in Hc. destruct (key_configured _ p); [| discriminate].
    destruct (client_error _); [discriminate |]. by injection Hc as <-.
  - rewrite lookup_insert_ne by done. apply Hw.
Qed.

Lemma get_chains_sound reqs (w : world) :
  sound w -> sound (get_chains (typed reqs) w).
Proof.
  revert w. induction reqs as [|[p name] reqs IH]; intros w Hw; [done |].
  simpl. by apply IH, get_chain_sound.
Qed.

Lemma get_chains_config reqs (w : world) :
  config (ai_service (get_chains reqs w)) = config (ai_service w).
Proof.
  revert w. induction reqs as [|[p m] reqs IH]; intros w; [done |].
  simpl. by rewrite IH, get_chain_config.
Qed.

(** X2. After any run of [get_chain] calls with string or absent model
    names on the fresh service, a call that names a model, other than by
    the empty string or by [default], and succeeds returns the chain of
    that provider for that very model. *)
Theorem get_chain_named_model (env : gmap string string)
    (reqs : list (ModelProvider * option string)) (p : ModelProvider)
    (name : string) (c : RunnableSequence) (w' : world) :
  name <> "" -> name <> "default" ->
  get_chain p (PStr name) (get_chains (typed reqs) (init env)) = (Ok c, w') ->
  c = built (_setup_config env) p (PStr name)
  /\ model_of (llm_of c) = PStr name.
Proof.
  intros Hname Hdefault Hget.
  assert (Hc : c = built (_setup_config env) p (PStr name)).
  { assert (Hsound : sound (get_chains (typed reqs) (init env))).
    { apply get_chains_sound. intros k c0. simpl. by rewrite lookup_empty. }
    pose proof (get_chains_config (typed reqs) (init env)) as Hcfg.
    simpl in Hcfg.
    destruct (get_chain_cases p (PStr name) (get_chains (typed reqs) (init env)))
      as [(c' & Hkey & Heq) | (Hkey & [(c' & Hc' & Heq) | (e & _ & Heq)])];
      rewrite Heq in Hget; [| | discriminate]; injection Hget as <- <-.
    - destruct (Hsound _ _ Hkey) as (q & other & Hk & ->).
      change (PStr name) with (of_optional (Some name)) in Hk.
      apply cache_key_inj in Hk as [<- Hk]. rewrite Hcfg.
      change (PStr name) with (of_optional (Some name)).
      symmetry. apply built_named; [done |].
      rewrite <- Hk. destruct name; [done | exact Hdefault].
    - rewrite Hcfg in Hc'. unfold creation in Hc'.
      destruct (key_configured _ p); [| discriminate].
      destruct (client_error _); [discriminate |]. by injection Hc' as <-. }
  split; [exact Hc |]. rewrite Hc. by destruct p, name.
Qed.

(** X3. The name [default] is taken: it shares its cache key with no name
    at all. After a first call without a model name, a call for the model
    named [default] returns the chain of the configured default model; after
    a first call for the model named [default], a call without a model name
    returns the chain of the model named [default]. *)
Theorem default_model_name_alias (p : ModelProvider) (w w1 : world)
    (c : RunnableSequence) :
  chains (ai_service w) !! cache_key p PNone = None ->
  cache_key p (PStr "default") = cache_key p PNone
  /\ (get_chain p PNone w = (Ok c, w1) ->
      get_chain p (PStr "default") w1 = (Ok c, w1)
      /\ model_of (llm_of c) = PStr (default_model (config (ai_service w)) p))
  /\ (get_chain p (PStr "default") w = (Ok c, w1) ->
      get_chain p PNone w1 = (Ok c, w1)
      /\ model_of (llm_of c) = PStr "default").
Proof.
  intros Hkey.
  assert (Hsame : cache_key p (PStr "default") = cache_key p PNone) by done.
  split; [exact Hsame |].
  split; intros Hget.
  - rewrite (get_chain_miss _ _ _ Hkey) in Hget. unfold creation in Hget.
    destruct (key_configured _ p); [| discriminate].
    destruct (client_error _); [discriminate |]. injection Hget as <- <-.
    split; [| by destruct p].
    apply get_chain_hit. rewrite Hsame. simpl. apply lookup_insert_eq.
  - rewrite <- Hsame in Hkey.
    rewrite (get_chain_miss _ _ _ Hkey) in Hget. unfold creation in Hget.
    destruct (key_configured _ p); [| discriminate].
    destruct (client_error _); [discriminate |]. injection Hget as <- <-.
    split; [| by destruct p].
    apply get_chain_hit. rewrite <- Hsame. simpl. apply lookup_insert_eq.
Qed.

Lemma invoke_model_caches (prompt : string) (p : ModelProvider) (m : pyval)
    (w : world) (c : RunnableSequence) :
  fst (get_chain p m w) = Ok c ->
  chains (ai_service (snd (invoke_model prompt p m w))) !! cache_key p m = Some c.
Proof.
  intros Hget. rewrite invoke_model_service.
  destruct (get_chain_cases p m w)
    as [(c' & Hkey & Heq) | (Hkey & [(c' & _ & Heq) | (e & _ & Heq)])];
    rewrite Heq in Hget |- *; simpl in *; [| | discriminate];
    injection Hget as <-; [done | apply lookup_insert_eq].
Qed.

Lemma invoke_model_hit_builds_nothing (prompt : string) (p : ModelProvider)
    (m : pyval) (w : world) (c : RunnableSequence) :
  chains (ai_service w) !! cache_key p m = Some c ->
  constructions (calls (snd (invoke_model prompt p m w))) = constructions (calls w).
Proof.
  intros Hhit. rewrite invoke_model_spec, (get_chain_hit _ _ _ _ Hhit).
  destruct (chain_invoke _ _ _); simpl;
    rewrite constructions_app; unfold constructions; simpl; lia.
Qed.

(** X4. Once [get_chain] has a chain for a provider and a model, every
    [invoke_model] for them finds it in the cache afterwards, whether the
    provider answered or failed: a failing call does not evict the chain,
    and the next call builds nothing. *)
Theorem invoke_model_keeps_chain (prompt : string) (p : ModelProvider)
    (m : pyval) (w : world) (c : RunnableSequence) :
  fst (get_chain p m w) = Ok c ->
  let w1 := snd (invoke_model prompt p m w) in
  get_chain p m w1 = (Ok c, w1)
  /\ forall prompt',
       constructions (calls (snd (invoke_model prompt' p m w1)))
       = constructions (calls w1).
Proof.
  intros Hget w1.
  pose proof (invoke_model_caches prompt _ _ _ _ Hget) as Hhit.
  split; [by apply get_chain_hit |].
  intros prompt'. by eapply invoke_model_hit_builds_nothing.
Qed.

Lemma repr_char_plain (c : ascii) :
  plain_char c = true -> repr_char "'" c = String c "".
Proof. destruct c as [[] [] [] [] [] [] [] []]; vm_compute; congruence. Qed.

Lemma repr_chars_plain (s : string) :
  plain s = true -> repr_chars "'" s = s /\ contains "'" s = false.
Proof.
  induction s as [|c r IH]; [done |].
  unfold plain. simpl. intros [Hc Hr]%andb_prop.
  destruct (IH Hr) as [-> Hno]. rewrite (repr_char_plain c Hc). split; [done |].
  rewrite Hno.
  destruct r; destruct c as [[] [] [] [] [] [] [] []];
    vm_compute in Hc |- *; congruence.
Qed.

(** [repr] of a string of printable characters without apostrophe and
    backslash is the string between apostrophes. *)
Lemma repr_str_plain (s : string) :
  plain s = true -> repr_str s = "'" +:+ s +:+ "'".
Proof.
  intros Hs. destruct (repr_chars_plain s Hs) as [Hc Hno].
  unfold repr_str, repr_quote. rewrite Hno.
  change (ascii_of_N 39) with "'"%char. simpl andb. cbv iota zeta.
  by rewrite Hc.
Qed.

(** [repr] on a plain name, on one with an apostrophe, on a line break and
    a backslash, on both quotes, and on a control character and a no-break
    space. *)
Example repr_str_cases :
  repr_str "mistral" = "'mistral'"
  /\ repr_str "it's" = String (ascii_of_N 34) ("it's" +:+ String (ascii_of_N 34) "")
  /\ repr_str ("a" +:+ NL +:+ "b\") = "'a\nb\\'"
  /\ repr_str (String (ascii_of_N 34) "'") = String "'" (String (ascii_of_N 34) "\''")
  /\ repr_str (String (ascii_of_N 1) (String (ascii_of_N 160) "")) = "'\x01\xa0'".
Proof. repeat split. Qed.

(** X5. [get_ai_response] reads the provider name in any letter case. A
    name that is none of auto, gpt and claude raises [ValueError], not the
    wrapped [Exception] of [invoke_model], and leaves the service as it
    was; the message is [repr] of the name in lower case followed by
    [is not a valid ModelProvider], and [repr] puts a name of printable
    characters without apostrophe and backslash between apostrophes. *)
Theorem get_ai_response_provider_name (prompt s : string) (m : pyval) (w : world) :
  (forall p, lower s = value p ->
             get_ai_response prompt s m w = invoke_model prompt p m w)
  /\ ((forall p, lower s <> value p) ->
      get_ai_response prompt s m w
      = (Raise (ValueError (repr_str (lower s) +:+ " is not a valid ModelProvider")), w))
  /\ (plain (lower s) = true -> repr_str (lower s) = "'" +:+ lower s +:+ "'").
Proof.
  unfold get_ai_response, bind, lift. split; [| split].
  - intros p ->. by destruct p.
  - intros Hno. unfold ModelProvider_of.
    destruct (String.eqb_spec (lower s) "auto") as [Ha|_]; [by destruct (Hno AUTO) |].
    destruct (String.eqb_spec (lower s) "gpt") as [Hg|_]; [by destruct (Hno GPT) |].
    destruct (String.eqb_spec (lower s) "claude") as [Hc|_]; [by destruct (Hno CLAUDE) |].
    reflexivity.
  - apply repr_str_plain.
Qed.

End cache_keys.

(** ** Every request to [POST /api/chat] *)

Section every_request.
Import ai backend.
Context `{Repr} `{Sdk}.

Lemma rstrip_idempotent (s : string) : rstrip (rstrip s) = rstrip s.
Proof.
  induction s as [|c s IH]; [reflexivity |]. simpl.
  destruct (rstrip s) as [|c' r'] eqn:Hr.
  - destruct (isspace c) eqn:Hc; simpl; [reflexivity | by rewrite Hc].
  - change (rstrip (String c (String c' r')))
      with (match rstrip (String c' r') with
            | "" => if isspace c then "" else String c ""
            | r => String c r
            end).
    by rewrite IH.
Qed.

Lemma rstrip_keeps_head (c : ascii) (r : string) :
  isspace c = false -> exists r', rstrip (String c r) = String c r'.
Proof.
  intros Hc. simpl. destruct (rstrip r); [rewrite Hc |]; eauto.
Qed.

(** Stripping twice is stripping once. *)
Lemma strip_idempotent (s : string) : strip (strip s) = strip s.
Proof.
  unfold strip. destruct (lstrip s) as [|c r] eqn:Hl; [reflexivity |].
  pose proof (lstrip_head _ _ _ Hl) as Hc.
  destruct (rstrip_keeps_head c r Hc) as [r' Hr].
  assert (Hkeep : lstrip (rstrip (String c r)) = rstrip (String c r))
    by (rewrite Hr; simpl; by rewrite Hc).
  by rewrite Hkeep, rstrip_idempotent.
Qed.

Lemma validate_accepted (d : gmap string pyval) (prompt : string) (p : ModelProvider) :
  validate d = Accepted prompt p ->
  exists s m, d !! "prompt" = Some (PStr s) /\ prompt = strip s /\ strip s <> ""
              /\ d !! "model" = Some (PStr m) /\ lower m = value p.
Proof.
  unfold validate.
  destruct (d !! "prompt") as [[| | |s| |]|]; try discriminate.
  destruct (str_truthy (strip s)) eqn:Hs; simpl; [| discriminate].
  destruct (d !! "model") as [[| | |m| |]|]; try discriminate.
  destruct (ModelProvider_of (lower m)) as [q|e] eqn:Hq; [| discriminate].
  intros [= <- <-]. exists s, m.
  split; [done |]. split; [done |]. split; [by apply strip_truthy |].
  split; [done |]. by apply ModelProvider_of_value.
Qed.

(** The three ways a request is answered: turned down or failed before the
    provider is reached, with the world untouched; served; failed by the
    provider. *)
Lemma chat_cases (request : Request) (w : world) :
  (exists msg, chat request w = (error_response msg 400, w))
  \/ (exists msg, chat request w = (error_response msg 500, w)
                  /\ (is_dict (get_json request) = false
                      \/ exists d, get_json request = PDict d
                                   /\ exists e, validate d = IllTyped e))
  \/ (exists d s m p,
        is_json request = true /\ get_json request = PDict d
        /\ d !! "prompt" = Some (PStr s) /\ strip s <> ""
        /\ d !! "model" = Some (PStr m) /\ lower m = value p
        /\ let specific_model := default PNone (d !! "specific_model") in
           match invoke_model (strip s) p specific_model w with
           | (Ok answer, w') =>
               chat request w
               = (jsonify (dict [("response", PStr answer);
                                 ("model_used", PStr (value p));
                                 ("specific_model", specific_model);
                                 ("status", PStr "success")]) 200, w')
           | (Raise e, w') =>
               chat request w
               = (error_response ("Failed to process chat request: " +:+ str_exn e)
                    500, w')
           end).
Proof.
  destruct (is_json request) eqn:Hj; [| left; rewrite chat_not_json; eauto].
  destruct (get_json request) as [| | |s|l|d] eqn:Hd.
  1-5: unfold chat, chat_try; rewrite Hj, Hd; simpl;
       unfold bind, lift, prompt_missing, rbind; simpl.
  1-3: right; left; eauto.
  - destruct (contains "prompt" s); simpl; [right; left | left]; eauto.
  - destruct (existsb (eq_str "prompt") l); simpl; [right; left | left]; eauto.
  - rewrite (chat_object _ _ _ Hj Hd). unfold respond.
    destruct (validate d) as [prompt p|msg|e] eqn:Hv.
    + right. right.
      apply validate_accepted in Hv as (s & m & Hp & -> & Hs & Hm & Hl).
      exists d, s, m, p. repeat (split; [done |]). cbv zeta.
      by destruct (invoke_model _ _ _ _) as [[answer|e] w'].
    + left. eauto.
    + right. left. eexists. split; [done |]. right. eauto.
Qed.

Lemma invoke_model_trace (prompt : string) (p : ModelProvider) (m : pyval)
    (w : world) :
  exists new,
    calls (snd (invoke_model prompt p m w)) = (calls w ++ new)%list
    /\ (constructions new <= 1)%nat
    /\ (invocations new <= 1)%nat
    /\ asked new = match fst (get_chain p m w) with Ok _ => [prompt] | Raise _ => [] end.
Proof.
  rewrite invoke_model_spec.
  destruct (get_chain_cases p m w)
    as [(c' & _ & ->) | (Hkey & [(c' & _ & ->) | (e & _ & ->)])]; simpl.
  - exists [Invoke c' prompt].
    destruct (chain_invoke _ _ _); simpl; repeat split; try reflexivity;
      unfold constructions, invocations; simpl; lia.
  - exists [Construct (llm_of c'); Invoke c' prompt].
    destruct (chain_invoke _ _ _); simpl; rewrite <- app_assoc;
      repeat split; try reflexivity;
      unfold constructions, invocations; simpl; lia.
  - exists []. rewrite app_nil_r. repeat split; try reflexivity;
      unfold constructions, invocations; simpl; lia.
Qed.

Lemma invoke_model_keeps (prompt : string) (p : ModelProvider) (m : pyval)
    (w : world) k c :
  chains (ai_service w) !! k = Some c ->
  chains (ai_service (snd (invoke_model prompt p m w))) !! k = Some c.
Proof. rewrite invoke_model_service. apply get_chain_keeps. Qed.

(** X6. Every request is answered, and with one of three statuses: 200
    with a body of exactly response, model_used, specific_model and status,
    the status being [success]; or 400 or 500 with a body of exactly error
    and status, the error a string and the status [error]. *)
Theorem chat_always_answers (request : Request) (w : world) :
  let r := fst (chat request w) in
  (status_code r = 200
   /\ json r !! "status" = Some (PStr "success")
   /\ keys r = list_to_set ["response"; "model_used"; "specific_model"; "status"])
  \/ ((status_code r = 400 \/ status_code r = 500)
      /\ json r !! "status" = Some (PStr "error")
      /\ (exists msg, json r !! "error" = Some (PStr msg))
      /\ keys r = list_to_set ["error"; "status"]).
Proof.
  assert (Herr : forall msg st (w' : world), st = 400 \/ st = 500 ->
            let r := fst (error_response msg st, w') in
            (status_code r = 400 \/ status_code r = 500)
            /\ json r !! "status" = Some (PStr "error")
            /\ (exists msg, json r !! "error" = Some (PStr msg))
            /\ keys r = list_to_set ["error"; "status"]).
  { intros msg st w' Hst. simpl. split; [done |]. split; [done |].
    split; [by eexists | apply keys_error]. }
  destruct (chat_cases request w)
    as [(msg & ->) | [(msg & -> & _) | (d & s & m & p & _ & _ & _ & _ & _ & _ & Hrun)]].
  - right. apply Herr. by left.
  - right. apply Herr. by right.
  - cbv zeta in Hrun.
    destruct (invoke_model _ _ _ _) as [[answer|e] w']; rewrite Hrun.
    + left. split; [done |]. split; [done | apply keys_success].
    + right. apply Herr. by right.
Qed.

(** X7. A request answered 400 has changed nothing: the cache, the
    configuration and the trace of SDK calls are as before. *)
Theorem chat_400_changes_nothing (request : Request) (w : world) :
  status_code (fst (chat request w)) = 400 -> snd (chat request w) = w.
Proof.
  destruct (chat_cases request w)
    as [(msg & ->) | [(msg & -> & _) | (d & s & m & p & _ & _ & _ & _ & _ & _ & Hrun)]];
    [done | done |].
  cbv zeta in Hrun.
  destruct (invoke_model _ _ _ _) as [[answer|e] w']; rewrite Hrun; discriminate.
Qed.

(** X8. One request builds at most one client and calls a chain at most
    once; it never changes the configuration and never removes or replaces
    a chain in the cache. *)
Theorem chat_effects (request : Request) (w : world) :
  let w' := snd (chat request w) in
  (exists new, calls w' = (calls w ++ new)%list
               /\ (constructions new <= 1)%nat /\ (invocations new <= 1)%nat)
  /\ config (ai_service w') = config (ai_service w)
  /\ forall k c, chains (ai_service w) !! k = Some c ->
                 chains (ai_service w') !! k = Some c.
Proof.
  destruct (chat_world request w) as [-> | (prompt & p & m & ->)]; cbv zeta.
  - split; [| done]. exists []. rewrite app_nil_r.
    repeat split; unfold constructions, invocations; simpl; lia.
  - split; [| split].
    + destruct (invoke_model_trace prompt p m w) as (new & ? & ? & ? & _). eauto.
    + apply invoke_model_config.
    + intros k c. apply invoke_model_keeps.
Qed.

(** X9. A JSON body that is not an object is never served and changes
    nothing: [null], a boolean or a number is answered 500; a string or an
    array is answered 400, unless the string has [prompt] inside it or the
    array has the string [prompt] as an element, which is answered 500. *)
Theorem chat_body_not_object (request : Request) (w : world) :
  is_json request = true ->
  is_dict (get_json request) = false ->
  snd (chat request w) = w
  /\ status_code (fst (chat request w))
     = match get_json request with
       | PStr s => if contains "prompt" s then 500 else 400
       | PList l => if existsb (eq_str "prompt") l then 500 else 400
       | _ => 500
       end.
Proof.
  intros Hj Hd. unfold chat, chat_try. rewrite Hj.
  destruct (get_json request) as [| | |s|l|d]; [..| discriminate]; simpl;
    unfold bind, lift, prompt_missing, rbind; simpl; try done.
  - by destruct (contains "prompt" s).
  - by destruct (existsb (eq_str "prompt") l).
Qed.

Lemma value_inj (p q : ModelProvider) : value p = value q -> p = q.
Proof. by destruct p, q. Qed.

(** X10. After a request answered 200, the same request again builds no
    client: the chain it needs is in the cache. *)
Theorem chat_again_builds_nothing (request : Request) (w : world) :
  status_code (fst (chat request w)) = 200 ->
  let w1 := snd (chat request w) in
  constructions (calls (snd (chat request w1))) = constructions (calls w1).
Proof.
  intros H200 w1. unfold w1.
  destruct (chat_cases request w)
    as [(msg & Hc) | [(msg & Hc & _)
                     | (d & s & m & p & _ & Hd & Hp & _ & Hm & Hl & Hrun)]];
    [rewrite Hc in H200; discriminate.. |].
  cbv zeta in Hrun.
  destruct (invoke_model (strip s) p _ w) as [[answer|e] w'] eqn:Hi;
    rewrite Hrun in H200 |- *; [| discriminate]. simpl.
  assert (Hw' : w' = snd (invoke_model (strip s) p
                            (default PNone (d !! "specific_model")) w))
    by (by rewrite Hi).
  assert (Hget : exists c, fst (get_chain p (default PNone (d !! "specific_model")) w)
                           = Ok c).
  { rewrite invoke_model_spec in Hi.
    destruct (get_chain p _ w) as [[c|e0] w0]; [eauto | discriminate]. }
  destruct Hget as [c Hget].
  pose proof (invoke_model_caches (strip s) _ _ _ _ Hget) as Hhit.
  rewrite <- Hw' in Hhit.
  destruct (chat_cases request w')
    as [(msg & ->) | [(msg & -> & _)
                     | (d' & s' & m' & p' & _ & Hd' & Hp' & _ & Hm' & Hl' & Hrun')]];
    [done | done |].
  rewrite Hd in Hd'. injection Hd' as <-.
  rewrite Hp in Hp'. injection Hp' as <-.
  rewrite Hm in Hm'. injection Hm' as <-.
  rewrite Hl in Hl'. apply value_inj in Hl' as <-.
  cbv zeta in Hrun'.
  pose proof (invoke_model_hit_builds_nothing (strip s) _ _ _ _ Hhit) as Hsame.
  destruct (invoke_model (strip s) p _ w') as [[answer'|e'] w2];
    rewrite Hrun'; exact Hsame.
Qed.

Lemma served_guarded (env : gmap string string) (w : world) (p : ModelProvider)
    (m : pyval) :
  served env w -> key_configured (_setup_config env) p = false ->
  get_chain p m w = (Raise (missing_key p), w).
Proof.
  intros Hw Hkey. apply served_invariant in Hw as [Hcfg Hguard].
  rewrite <- Hcfg in Hkey.
  rewrite (get_chain_miss _ _ _ (Hguard _ _ Hkey)). unfold creation.
  by rewrite Hkey.
Qed.

(** X11. The listing and the guard of [create_*_chain] agree: for gpt and
    for claude the entry of [GET /api/models] says [available] exactly when
    the service, imported under the same environment, has the API key its
    guard asks for; and when it says unavailable, every [get_chain] for that
    provider fails on the guard, whatever was served before, and changes
    nothing. *)
Theorem models_listing_matches_guard (env : gmap string string)
    (p : ModelProvider) (var : string) :
  key_variable p = Some var ->
  exists entry,
    entry ∈ model_entries (get_available_models env)
    /\ entry !! "id" = Some (PStr (value p))
    /\ entry !! "available" = Some (PBool (key_configured (_setup_config env) p))
    /\ (key_configured (_setup_config env) p = false ->
        forall w m, served env w -> get_chain p m w = (Raise (missing_key p), w)).
Proof.
  intros Hvar.
  assert (Hguard : key_configured (_setup_config env) p = false ->
            forall w m, served env w -> get_chain p m w = (Raise (missing_key p), w))
    by (intros Hkey w m Hw; by apply (served_guarded env)).
  destruct p; simpl in Hvar; [discriminate | |]; eexists;
    (split; [| split; [| split; [| exact Hguard]]]).
  - apply list_elem_of_lookup. exists 1%nat. reflexivity.
  - reflexivity.
  - reflexivity.
  - apply list_elem_of_lookup. exists 2%nat. reflexivity.
  - reflexivity.
  - reflexivity.
Qed.

Lemma asked_app (t u : list sdk_call) : asked (t ++ u) = (asked t ++ asked u)%list.
Proof. unfold asked. apply omap_app. Qed.

(** X12. A backend that serves requests and nothing else never hands a
    provider an empty prompt, nor one with white space around it: every
    question in the trace of SDK calls is non-empty and stripped. *)
Theorem chat_prompts_are_clean (env : gmap string string) (w : world) :
  served_http env w -> Forall clean (asked (calls w)).
Proof.
  induction 1 as [|request w Hw IH]; [constructor |].
  destruct (chat_cases request w)
    as [(msg & ->) | [(msg & -> & _) | (d & s & m & p & _ & _ & _ & Hs & _ & _ & Hrun)]];
    [done | done |].
  cbv zeta in Hrun.
  destruct (invoke_model_trace (strip s) p (default PNone (d !! "specific_model")) w)
    as (new & Hcalls & _ & _ & Hasked).
  assert (Hw' : snd (chat request w)
                = snd (invoke_model (strip s) p
                         (default PNone (d !! "specific_model")) w))
    by (by destruct (invoke_model _ _ _ _) as [[answer|e] w']; rewrite Hrun).
  rewrite Hw', Hcalls, asked_app, Hasked. apply Forall_app. split; [exact IH |].
  destruct (fst (get_chain _ _ _)); [| constructor].
  repeat constructor; [exact Hs | apply strip_idempotent].
Qed.

End every_request.

(** ** The interactive [main] of ai.py *)

Section cli.
Import ai ai_cli.
Context `{Repr} `{Sdk}.
#[local] Arguments str_in : simpl never.
#[local] Arguments strip : simpl never.
#[local] Arguments lower : simpl never.
#[local] Arguments invoke_model : simpl never.

Lemma cache_key_default (p : ModelProvider) : cache_key p PNone ∈ default_keys.
Proof.
  destruct p; apply elem_of_list_to_set; vm_compute; repeat constructor.
Qed.

Lemma invoke_model_default_keys (prompt : string) (p : ModelProvider) (w : world) :
  dom (chains (ai_service w)) ⊆ default_keys ->
  dom (chains (ai_service (snd (invoke_model prompt p PNone w)))) ⊆ default_keys.
Proof.
  intros Hw. rewrite invoke_model_service.
  destruct (get_chain_cases p PNone w)
    as [(c' & _ & ->) | (Hkey & [(c' & _ & ->) | (e & _ & ->)])]; simpl; try done.
  rewrite dom_insert_L. intros k Hk.
  apply elem_of_union in Hk as [Hk%elem_of_singleton | Hk];
    [subst k; apply cache_key_default | by apply Hw].
Qed.

(** What a pass does, by the line typed. *)
Lemma pass_cases (input : nat -> taiga.outcome string) (st : State) :
  let st' := state_of (pass input st) in
  (current_provider st' = current_provider st
   /\ (world_of st' = world_of st
       \/ exists line,
            input (reads st) = taiga.Returns line
            /\ question ("switch" :: quit_words) (strip line)
            /\ world_of st' = snd (invoke_model (strip line) (current_provider st)
                                      PNone (world_of st))))
  \/ (exists line line2,
        input (reads st) = taiga.Returns line
        /\ lower (strip line) = "switch"
        /\ input (S (reads st)) = taiga.Returns line2
        /\ lower (strip line2) = value (current_provider st')
        /\ world_of st' = world_of st
        /\ pass input st = Next st').
Proof.
  unfold pass.
  destruct (input (reads st)) as [line|r] eqn:Hin; [| left; split; [done | by left]].
  destruct (str_in (lower (strip line)) ["quit"; "exit"; "q"]) eqn:Hquit;
    [left; split; [done | by left] |].
  destruct (String.eqb_spec (lower (strip line)) "switch") as [Hsw|Hsw].
  - destruct (input (S (reads st))) as [line2|r] eqn:Hin2;
      [| left; split; [done | by left]].
    destruct (ModelProvider_of (lower (strip line2))) as [p|e] eqn:Hp;
      [| left; split; [done | by left]].
    right. exists line, line2. simpl.
    repeat (split; [done |]). split; [by apply ModelProvider_of_value |]. done.
  - destruct (str_truthy (strip line)) eqn:Hne; simpl;
      [| left; split; [done | by left]].
    left. split; [done |]. right. exists line. split; [done |]. split; [| done].
    split; [split; [by destruct (strip line) | apply strip_idempotent] |].
    unfold str_in, quit_words in *.
    change (String.eqb (lower (strip line)) "switch"
            || existsb (String.eqb (lower (strip line))) ["quit"; "exit"; "q"]
            = false).
    rewrite Hquit, orb_false_r. by apply String.eqb_neq.
Qed.

(** X13. In the interactive loop of ai.py the provider changes in one way
    only: by a line that reads [switch] in lower case followed by a line
    that names, stripped and in lower case, the provider the loop then
    uses; and such a pass leaves the service alone. *)
Theorem provider_changes_by_switch_only (input : nat -> taiga.outcome string)
    (st : State) :
  current_provider (state_of (pass input st)) <> current_provider st ->
  exists line line2,
    input (reads st) = taiga.Returns line
    /\ lower (strip line) = "switch"
    /\ input (S (reads st)) = taiga.Returns line2
    /\ lower (strip line2) = value (current_provider (state_of (pass input st)))
    /\ world_of (state_of (pass input st)) = world_of st.
Proof.
  intros Hchange.
  destruct (pass_cases input st)
    as [[Hsame _] | (line & line2 & ? & ? & ? & ? & ? & _)]; [done |].
  by exists line, line2.
Qed.

Lemma passes_invariant (P : world -> Prop) (input : nat -> taiga.outcome string) :
  (forall prompt p w, P w -> P (snd (invoke_model prompt p PNone w))) ->
  forall fuel st, P (world_of st) -> P (world_of (state_of (passes input fuel st))).
Proof.
  intros Hstep. induction fuel as [|fuel IH]; intros st Hst; [done |].
  simpl.
  assert (Hpass : P (world_of (state_of (pass input st)))).
  { destruct (pass_cases input st)
      as [[_ [-> | (line & _ & _ & ->)]] | (l1 & l2 & _ & _ & _ & _ & -> & _)];
      auto. }
  destruct (pass input st) as [st'|st'|r st']; [by apply IH | done..].
Qed.

(** X14. However long the interactive loop of ai.py runs, its cache holds
    at most three chains, under the keys auto_default, gpt_default and
    claude_default: the loop never names a model. *)
Theorem main_cache_bounded (env : gmap string string)
    (input : nat -> taiga.outcome string) (fuel : nat) :
  let w := world_of (state_of (main env input fuel)) in
  dom (chains (ai_service w)) ⊆ default_keys
  /\ (size (chains (ai_service w)) <= 3)%nat.
Proof.
  assert (Hdom : dom (chains (ai_service
                   (world_of (state_of (main env input fuel))))) ⊆ default_keys).
  { apply (passes_invariant
             (fun w => dom (chains (ai_service w)) ⊆ default_keys)).
    - intros prompt p w. apply invoke_model_default_keys.
    - simpl. by rewrite dom_empty. }
  split; [exact Hdom |].
  rewrite <- size_dom. apply (subseteq_size _ _) in Hdom.
  etrans; [exact Hdom |]. by vm_compute.
Qed.

(** X15. The interactive loop of ai.py hands a provider nothing but
    questions: every prompt in its trace of SDK calls is non-empty,
    stripped, and in lower case none of switch, quit, exit and q; and a
    pass calls a chain at most once. *)
Theorem main_asks_questions_only (env : gmap string string)
    (input : nat -> taiga.outcome string) (fuel : nat) :
  Forall (question ("switch" :: quit_words))
         (asked (calls (world_of (state_of (main env input fuel)))))
  /\ forall st, exists new,
       calls (world_of (state_of (pass input st)))
       = (calls (world_of st) ++ new)%list
       /\ (invocations new <= 1)%nat.
Proof.
  split.
  - assert (Hgen : forall fuel st,
              Forall (question ("switch" :: quit_words)) (asked (calls (world_of st))) ->
              Forall (question ("switch" :: quit_words))
                     (asked (calls (world_of (state_of (passes input fuel st)))))).
    { clear fuel. induction fuel as [|fuel IH]; intros st Hst; [done |].
      simpl.
      assert (Hpass : Forall (question ("switch" :: quit_words))
                        (asked (calls (world_of (state_of (pass input st)))))).
      { destruct (pass_cases input st)
          as [[_ [-> | (line & _ & Hq & ->)]] | (l1 & l2 & _ & _ & _ & _ & -> & _)];
          [done | | done].
        destruct (invoke_model_trace (strip line) (current_provider st) PNone
                    (world_of st)) as (new & -> & _ & _ & Hasked).
        rewrite asked_app, Hasked. apply Forall_app. split; [done |].
        destruct (fst (get_chain _ _ _)); repeat constructor; apply Hq. }
      destruct (pass input st) as [st'|st'|r st']; [by apply IH | done..]. }
    apply Hgen. constructor.
  - intros st.
    destruct (pass_cases input st)
      as [[_ [-> | (line & _ & _ & ->)]] | (l1 & l2 & _ & _ & _ & _ & -> & _)].
    + exists []. rewrite app_nil_r. split; [done | unfold invocations; simpl; lia].
    + destruct (invoke_model_trace (strip line) (current_provider st) PNone
                  (world_of st)) as (new & ? & _ & ? & _). eauto.
    + exists []. rewrite app_nil_r. split; [done | unfold invocations; simpl; lia].
Qed.

End cli.

(** ** The script ollama/main.py *)

Section ollama.
Import ai ollama_script.
Context `{Sdk}.
#[local] Arguments str_in : simpl never.
#[local] Arguments strip : simpl never.
#[local] Arguments lower : simpl never.
#[local] Open Scope list_scope.

Lemma loop_trace (chain : RunnableSequence) (input : nat -> taiga.outcome string)
    (fuel n : nat) (trace : list sdk_call) :
  exists qs,
    snd (loop chain input fuel n trace) = trace ++ map (Invoke chain) qs
    /\ Forall (question quit_words) qs.
Proof.
  revert n trace. induction fuel as [|fuel IH]; intros n trace.
  - exists []. simpl. by rewrite app_nil_r.
  - simpl. destruct (input n) as [line|[|e]];
      [| exists []; simpl; by rewrite app_nil_r..].
    destruct (str_in (lower (strip line)) ["quit"; "exit"; "q"]) eqn:Hquit;
      [exists []; simpl; by rewrite app_nil_r |].
    destruct (str_truthy (strip line)) eqn:Hne; simpl; [| apply IH].
    destruct (IH (S n) (trace ++ [Invoke chain (strip line)])) as (qs & -> & Hqs).
    exists (strip line :: qs). split; [simpl; by rewrite <- app_assoc |].
    constructor; [| exact Hqs].
    split; [split; [by destruct (strip line) | apply strip_idempotent] | exact Hquit].
Qed.

(** X16. The script builds its client once, before anything else, and
    after that does nothing but call the one chain, each time with a
    question: a stripped, non-empty line that is not quit, exit or q in
    lower case. When the client cannot be built it ends at once, with no
    call made. *)
Theorem ollama_main_trace (input : nat -> taiga.outcome string) (fuel : nat) :
  match client_error llm with
  | Some e => main input fuel = (Failed e, [])
  | None =>
      exists chain qs,
        fst (create_ollama_chain []) = Ok chain
        /\ llm_of chain = llm
        /\ snd (main input fuel) = Construct llm :: map (Invoke chain) qs
        /\ Forall (question quit_words) qs
  end.
Proof.
  unfold main, create_ollama_chain.
  destruct (client_error llm) as [e|]; [reflexivity |].
  eexists. destruct (loop_trace
    {| prompt_of := {| input_variables := ["question"];
                       template := "Human: {question}" +:+ NL +:+ NL +:+ "Assistant:" |};
       llm_of := llm |} input fuel 0 ([] ++ [Construct llm])) as (qs & Htrace & Hqs).
  exists qs. split; [reflexivity |]. split; [reflexivity |]. split; [exact Htrace | exact Hqs].
Qed.

(** X17. The script and the service talk to the same model by default:
    where neither OLLAMA_BASE_URL nor OLLAMA_DEFAULT_MODEL is set, the chain
    of the script is the chain [create_ollama_chain] of the service builds
    when no model is named. *)
Theorem ollama_chain_is_service_default (env : gmap string string)
    (trace : list sdk_call) (w : world) :
  env !! "OLLAMA_BASE_URL" = None ->
  env !! "OLLAMA_DEFAULT_MODEL" = None ->
  config (ai_service w) = _setup_config env ->
  fst (create_ollama_chain trace) = fst (ai.create_ollama_chain PNone w).
Proof.
  intros Hurl Hmodel Hcfg.
  unfold create_ollama_chain, ai.create_ollama_chain, bind, construct, ret.
  rewrite Hcfg. unfold _setup_config, getenv. simpl. rewrite Hurl, Hmodel. simpl.
  change (OllamaLLM (py_or PNone (PStr "qwen3:8b")) "http://localhost:11434")
    with llm.
  by destruct (client_error llm).
Qed.

End ollama.

(** ** The frontend *)

Section browser.
Import ai backend.
Context `{Repr}.
#[local] Arguments strip : simpl never.
#[local] Open Scope list_scope.

Lemma set_last_reply_appended (response x y : pyval) (history : list (list pyval)) :
  frontend.set_last_reply response (history ++ [[x; y]])
  = Some (history ++ [[x; response]]).
Proof.
  unfold frontend.set_last_reply.
  destruct (history ++ [[x; y]]) as [|r0 rest] eqn:Hh;
    [by destruct history |].
  rewrite <- Hh. clear Hh r0 rest.
  rewrite length_app. simpl.
  replace (length history + 1 - 1)%nat with (length history + 0)%nat by lia.
  rewrite lookup_app_r, Nat.add_0_r, Nat.sub_diag by lia. simpl.
  rewrite insert_app_r_alt, Nat.sub_diag by lia. reflexivity.
Qed.

(** X18. [chat_fn] never fails on its list indices. On a message that is
    blank it returns the history as it is; on any other message it returns
    the history with one row added at the end, the message as typed beside
    what [send_chat_request] returned for it. The placeholder text is gone
    from the row, and the text box is cleared either way. *)
Theorem chat_fn_adds_one_row `{frontend.Http} (thinking message : string)
    (history : list (list pyval)) (model : string) :
  frontend.chat_fn thinking message history model
  = Some (if negb (str_truthy (strip message)) then history
          else history ++ [[PStr message;
                            frontend.send_chat_request message
                              (frontend.model_id model)]],
          "").
Proof.
  unfold frontend.chat_fn.
  destruct (negb (str_truthy (strip message))); [reflexivity |].
  cbv zeta. by rewrite set_last_reply_appended.
Qed.

Lemma model_id_provider (model : string) :
  exists p, frontend.model_id model = value p.
Proof.
  unfold frontend.model_id.
  destruct (contains "Ollama" model); [by exists AUTO |].
  destruct (contains "GPT" model); [by exists GPT | by exists CLAUDE].
Qed.

(** X19. What the frontend sends is never turned down by the backend. For
    a message that is not blank and any choice of the model box, with the
    request delivered to [chat] and the answer delivered back, the model
    sent is one of auto, gpt and claude, and [send_chat_request] returns
    the reply of that provider to the stripped message or, when the
    provider call fails, the text [Error: Failed to process chat request:]
    followed by the failure; none of the 400 messages of the backend can
    come back. *)
Theorem frontend_request_is_served `{Sdk} (w : world) (message model : string) :
  strip message <> "" ->
  exists p,
    frontend.model_id model = value p
    /\ frontend.send_chat_request (H0 := loopback w) message (frontend.model_id model)
       = match invoke_model (strip message) p PNone w with
         | (Ok answer, _) => PStr answer
         | (Raise e, _) =>
             PStr ("Error: Failed to process chat request: " +:+ str_exn e)
         end.
Proof.
  intros Hmsg. destruct (model_id_provider model) as [p Hp]. exists p.
  split; [exact Hp |]. rewrite Hp.
  unfold frontend.send_chat_request, frontend.send_chat_request_try, loopback,
    frontend.requests_post, rbind.
  rewrite (chat_object _ w (dict [("prompt", PStr message); ("model", PStr (value p))]))
    by reflexivity.
  unfold respond.
  rewrite (validate_accepts _ message (value p) p)
    by (try reflexivity; try done; apply lower_value).
  change (default PNone (dict [("prompt", PStr message); ("model", PStr (value p))]
                         !! "specific_model")) with PNone.
  destruct (invoke_model (strip message) p PNone w) as [[answer|e] w']; reflexivity.
Qed.

End browser.

(** ** What [chat] reads of a request *)

Section reading.
Import ai backend.
Context `{Repr} `{Sdk}.

Lemma lower_char_idempotent (c : ascii) : lower_char (lower_char c) = lower_char c.
Proof. by destruct c as [[] [] [] [] [] [] [] []]. Qed.

Lemma lower_idempotent (s : string) : lower (lower s) = lower s.
Proof.
  induction s as [|c s IH]; [reflexivity |]. simpl.
  by rewrite lower_char_idempotent, IH.
Qed.

Lemma respond_ext (d d' : gmap string pyval) (w : world) :
  d !! "prompt" = d' !! "prompt" -> d !! "model" = d' !! "model" ->
  d !! "specific_model" = d' !! "specific_model" ->
  respond d w = respond d' w.
Proof. intros Hp Hm Hs. unfold respond, validate. by rewrite Hp, Hm, Hs. Qed.

(** X20. Of a JSON object [chat] reads the fields prompt, model and
    specific_model and nothing else: two requests whose objects agree on
    these three are answered alike and leave the same world. *)
Theorem chat_reads_three_fields (request request' : Request) (w : world)
    (d d' : gmap string pyval) :
  is_json request = true -> get_json request = PDict d ->
  is_json request' = true -> get_json request' = PDict d' ->
  d !! "prompt" = d' !! "prompt" -> d !! "model" = d' !! "model" ->
  d !! "specific_model" = d' !! "specific_model" ->
  chat request w = chat request' w.
Proof.
  intros Hj Hd Hj' Hd' Hp Hm Hs.
  rewrite (chat_object _ _ _ Hj Hd), (chat_object _ _ _ Hj' Hd').
  by apply respond_ext.
Qed.

(** X21. [chat] takes the prompt up to surrounding white space and the
    model up to letter case: a request is answered as the request with the
    prompt stripped and the model in lower case is. *)
Theorem chat_normalises (request request' : Request) (w : world)
    (d : gmap string pyval) (s m : string) :
  is_json request = true -> get_json request = PDict d ->
  d !! "prompt" = Some (PStr s) -> d !! "model" = Some (PStr m) ->
  is_json request' = true ->
  get_json request'
  = PDict (<["prompt" := PStr (strip s)]> (<["model" := PStr (lower m)]> d)) ->
  chat request w = chat request' w.
Proof.
  intros Hj Hd Hp Hm Hj' Hd'.
  rewrite (chat_object _ _ _ Hj Hd), (chat_object _ _ _ Hj' Hd').
  unfold respond, validate.
  rewrite lookup_insert_eq.
  rewrite (lookup_insert_ne _ "prompt" "model"), lookup_insert_eq by done.
  rewrite !(lookup_insert_ne _ _ "specific_model") by done.
  by rewrite Hp, Hm, strip_idempotent, lower_idempotent.
Qed.

End reading.

(** ** The further properties at concrete inputs *)

Section further_inputs.
Import ai backend.
#[local] Existing Instance sample.repr.
#[local] Existing Instance sample.echo.

Lemma get_chain_named_model_witness :
  let before := [(GPT, None); (AUTO, Some "llama3"); (AUTO, None)] in
  exists c w',
    get_chain AUTO (PStr "mistral") (get_chains (typed before) (init ∅)) = (Ok c, w')
    /\ model_of (llm_of c) = PStr "mistral".
Proof.
  intros before. do 2 eexists. split; [reflexivity |].
  apply (get_chain_named_model ∅ before AUTO "mistral" _ _
           ltac:(discriminate) ltac:(discriminate) eq_refl).
Defined.

Lemma default_model_name_alias_witness :
  let w1 := snd (get_chain AUTO PNone (init ∅)) in
  exists c,
    get_chain AUTO (PStr "default") w1 = (Ok c, w1)
    /\ model_of (llm_of c) = PStr "qwen3:8b".
Proof.
  intros w1. exists (built (_setup_config ∅) AUTO PNone).
  destruct (default_model_name_alias AUTO (init ∅) w1
              (built (_setup_config ∅) AUTO PNone) eq_refl) as (_ & Hfirst & _).
  exact (Hfirst eq_refl).
Defined.

Lemma invoke_model_keeps_chain_witness :
  let w1 := snd (invoke_model (H0 := sample.offline) "hi" AUTO PNone (init ∅)) in
  exists c, get_chain AUTO PNone w1 = (Ok c, w1).
Proof.
  intros w1. eexists.
  apply (invoke_model_keeps_chain (H0 := sample.offline) "hi" AUTO PNone (init ∅) _
           eq_refl).
Defined.

Lemma chat_400_changes_nothing_witness :
  snd (chat (sample.post [("prompt", PStr ""); ("model", PStr "gpt")]) (init ∅))
  = init ∅.
Proof.
  apply (chat_400_changes_nothing
           (sample.post [("prompt", PStr ""); ("model", PStr "gpt")]) (init ∅)).
  reflexivity.
Defined.

Lemma chat_body_not_object_witness :
  let request := {| is_json := true; get_json := PList [PStr "prompt"] |} in
  snd (chat request (init ∅)) = init ∅
  /\ status_code (fst (chat request (init ∅))) = 500.
Proof.
  intros request.
  apply (chat_body_not_object request (init ∅) eq_refl eq_refl).
Defined.

Lemma chat_again_builds_nothing_witness :
  let request := sample.post [("prompt", PStr "hi"); ("model", PStr "auto")] in
  let w1 := snd (chat request (init ∅)) in
  constructions (calls (snd (chat request w1))) = constructions (calls w1).
Proof.
  intros request w1.
  apply (chat_again_builds_nothing request (init ∅)). reflexivity.
Defined.

Lemma models_listing_matches_guard_witness :
  exists entry,
    entry ∈ model_entries (get_available_models ∅)
    /\ entry !! "id" = Some (PStr "gpt")
    /\ entry !! "available" = Some (PBool false)
    /\ (key_configured (_setup_config ∅) GPT = false ->
        forall w m, served ∅ w -> get_chain GPT m w = (Raise (missing_key GPT), w)).
Proof.
  exact (models_listing_matches_guard ∅ GPT "OPENAI_API_KEY" eq_refl).
Defined.

Lemma chat_prompts_are_clean_witness :
  let request := sample.post [("prompt", PStr "  hi  "); ("model", PStr "auto")] in
  Forall clean (asked (calls (snd (chat request (init ∅))))).
Proof.
  intros request.
  apply (chat_prompts_are_clean ∅). apply served_http_chat, served_http_init.
Defined.

Lemma provider_changes_by_switch_only_witness :
  let input := typed_lines [" Switch "; " GPT "] in
  let st := {| ai_cli.reads := 0; ai_cli.current_provider := AUTO;
               ai_cli.world_of := init ∅ |} in
  exists line line2,
    input 0%nat = taiga.Returns line
    /\ lower (strip line) = "switch"
    /\ input 1%nat = taiga.Returns line2
    /\ lower (strip line2) = "gpt"
    /\ ai_cli.world_of (ai_cli.state_of (ai_cli.pass input st)) = init ∅.
Proof.
  intros input st.
  apply (provider_changes_by_switch_only input st). discriminate.
Defined.

Lemma ollama_chain_is_service_default_witness :
  fst (ollama_script.create_ollama_chain [])
  = fst (ai.create_ollama_chain PNone (init {["OPENAI_API_KEY" := "sk-test"]})).
Proof.
  apply (ollama_chain_is_service_default {["OPENAI_API_KEY" := "sk-test"]} []
           (init {["OPENAI_API_KEY" := "sk-test"]})); reflexivity.
Defined.

Lemma frontend_request_is_served_witness :
  exists p,
    frontend.model_id "GPT (OpenAI)" = value p
    /\ frontend.send_chat_request (H0 := loopback (init ∅)) " hi "
         (frontend.model_id "GPT (OpenAI)")
       = match invoke_model "hi" p PNone (init ∅) with
         | (Ok answer, _) => PStr answer
         | (Raise e, _) =>
             PStr ("Error: Failed to process chat request: " +:+ str_exn e)
         end.
Proof.
  apply (frontend_request_is_served (init ∅) " hi " "GPT (OpenAI)").
  discriminate.
Defined.

Lemma chat_reads_three_fields_witness :
  chat (sample.post [("prompt", PStr "hi"); ("model", PStr "auto")]) (init ∅)
  = chat (sample.post [("prompt", PStr "hi"); ("model", PStr "auto");
                       ("temperature", PInt 2); ("stream", PBool true)]) (init ∅).
Proof.
  apply (chat_reads_three_fields
           (sample.post [("prompt", PStr "hi"); ("model", PStr "auto")])
           (sample.post [("prompt", PStr "hi"); ("model", PStr "auto");
                         ("temperature", PInt 2); ("stream", PBool true)])
           (init ∅) _ _ eq_refl eq_refl eq_refl eq_refl); reflexivity.
Defined.

Lemma chat_normalises_witness :
  let d := dict [("prompt", PStr "  hi "); ("model", PStr "Auto")] in
  chat {| is_json := true; get_json := PDict d |} (init ∅)
  = chat {| is_json := true;
            get_json := PDict (<["prompt" := PStr "hi"]>
                                 (<["model" := PStr "auto"]> d)) |} (init ∅).
Proof.
  intros d.
  apply (chat_normalises {| is_json := true; get_json := PDict d |} _ (init ∅) d
           "  hi " "Auto"); reflexivity.
Defined.

(** The frontend against a backend without an OpenAI key: the row added
    holds the message and the error the backend reports. *)
Example chat_fn_without_key :
  frontend.chat_fn (H0 := loopback (init ∅)) "Thinking..." "hello" [] "GPT (OpenAI)"
  = Some ([[PStr "hello";
            PStr ("Error: Failed to process chat request: Error with gpt: "
                  +:+ "OpenAI API key not configured. "
                  +:+ "Please set OPENAI_API_KEY environment variable."
                  +:+ troubleshooting GPT)]], "").
Proof. reflexivity. Qed.

(** A session of the interactive loop of ai.py: a question to Ollama, a
    switch to an unknown provider, a switch to claude, a question that
    fails for want of a key, then [quit]. *)
Example main_session :
  let lines := ["hi"; "switch"; "mistral"; "SWITCH"; " Claude "; ""; "hello"; "Quit"] in
  match ai_cli.main ∅ (typed_lines lines) 10 with
  | ai_cli.Done st =>
      ai_cli.reads st = 8%nat
      /\ ai_cli.current_provider st = CLAUDE
      /\ asked (calls (ai_cli.world_of st)) = ["hi"]
      /\ dom (chains (ai_service (ai_cli.world_of st))) = {["auto_default"]}
  | _ => False
  end.
Proof. vm_compute. repeat split. Qed.

End further_inputs.
